(** * Route-safety pipeline of the Unfold India backend

    A shallow embedding of [app/services/safety_engine.py],
    [app/services/route_service.py] and [app/routers/route.py], followed by
    the properties of the scoring, ranking and error-mapping code.

    Modelling conventions.
    - Python [float]s are exact rationals ([Q]); on every concrete input
      used below binary floating point takes the same branches and prints
      the same rounded figures, so the two readings agree on them.
    - [str] is [string] over ASCII; [strip], [lower] and the regular
      expression classes [\b] and [\w] are the ASCII ones.
    - A JSON object read with [d.get(k, default)] is a record whose fields
      are [option]s: [None] is a missing key.
    - The module-level geocode cache is a [gmap] threaded through the
      pipeline; an exception leaves the cache as it was when raised.
    - The two external services are functions from the request to the
      reply they give. *)

From Stdlib Require Import QArith Qround Qabs ZArith String Ascii Lia.
From Stdlib Require Import Permutation Sorted DecimalString Lqa.
From stdpp Require Import base option list gmap strings.

Open Scope Q_scope.

(** ** Python primitives *)

Module Py.

Definition Qleb (x y : Q) : bool := Qle_bool x y.
Definition Qltb (x y : Q) : bool := negb (Qle_bool y x).
Definition Qgeb (x y : Q) : bool := Qle_bool y x.
Definition Qgtb (x y : Q) : bool := negb (Qle_bool x y).

(** [int(x)] on a float: truncation towards zero. *)
Definition int (x : Q) : Z := Z.quot (Qnum x) (Zpos (Qden x)).

(** [round(x)] to an integer, ties to the even neighbour. *)
Definition round_half_even (x : Q) : Z :=
  let f := Qfloor x in
  let d := x - inject_Z f in
  if Qltb d (1 # 2) then f
  else if Qltb (1 # 2) d then (f + 1)%Z
  else if Z.even f then f else (f + 1)%Z.

(** [round(x, ndigits)]. *)
Definition round (x : Q) (ndigits : nat) : Q :=
  let scale := inject_Z (10 ^ Z.of_nat ndigits) in
  inject_Z (round_half_even (x * scale)) / scale.

(** [max(a, b)] on integers. *)
Definition max (a b : Z) : Z := Z.max a b.

Definition is_space (c : ascii) : bool :=
  let n := nat_of_ascii c in
  ((9 <=? n)%nat && (n <=? 13)%nat) || ((28 <=? n)%nat && (n <=? 32)%nat).

Definition is_empty (s : string) : bool :=
  match s with EmptyString => true | String _ _ => false end.

Fixpoint lstrip (s : string) : string :=
  match s with
  | EmptyString => EmptyString
  | String c s' => if is_space c then lstrip s' else s
  end.

Fixpoint rstrip (s : string) : string :=
  match s with
  | EmptyString => EmptyString
  | String c s' =>
      let r := rstrip s' in
      if is_space c && is_empty r then EmptyString else String c r
  end.

(** [s.strip()] *)
Definition strip (s : string) : string := rstrip (lstrip s).

Definition lower_ascii (c : ascii) : ascii :=
  let n := nat_of_ascii c in
  if ((65 <=? n)%nat && (n <=? 90)%nat)%bool then ascii_of_nat (n + 32) else c.

(** [s.lower()] *)
Fixpoint lower (s : string) : string :=
  match s with
  | EmptyString => EmptyString
  | String c s' => String (lower_ascii c) (lower s')
  end.

(** [str(n)] for a non-negative integer. *)
Definition str_of_nat (n : nat) : string :=
  DecimalString.NilZero.string_of_uint (Nat.to_uint n).

(** *** The fragment of [re] used by both highway patterns:
    [\b(alt1|alt2|...)\b] with [re.IGNORECASE], literal alternatives. *)

Definition is_word_char (c : ascii) : bool :=
  let n := nat_of_ascii c in
  ((48 <=? n)%nat && (n <=? 57)%nat)
  || ((65 <=? n)%nat && (n <=? 90)%nat)
  || ((97 <=? n)%nat && (n <=? 122)%nat)
  || (n =? 95)%nat.

Definition is_word (c : option ascii) : bool :=
  match c with Some a => is_word_char a | None => false end.

Definition peek (s : string) : option ascii :=
  match s with EmptyString => None | String c _ => Some c end.

(** [\b] between the character [prev] and the text [rest]. *)
Definition at_boundary (prev : option ascii) (rest : string) : bool :=
  xorb (is_word prev) (is_word (peek rest)).

(** Match the literal [p] at the head of [s], ignoring case; on success
    the last character consumed and the remaining text. *)
Fixpoint match_literal (p : string) (prev : option ascii) (s : string)
  : option (option ascii * string) :=
  match p with
  | EmptyString => Some (prev, s)
  | String a p' =>
      match s with
      | EmptyString => None
      | String c s' =>
          if Ascii.eqb (lower_ascii a) (lower_ascii c)
          then match_literal p' (Some c) s'
          else None
      end
  end.

Definition match_here (alts : list string) (prev : option ascii) (s : string) : bool :=
  at_boundary prev s
  && existsb (fun p =>
                match match_literal p prev s with
                | Some (last, rest) => at_boundary last rest
                | None => false
                end) alts.

Fixpoint search_from (alts : list string) (prev : option ascii) (s : string) : bool :=
  match_here alts prev s
  || match s with
     | EmptyString => false
     | String c s' => search_from alts (Some c) s'
     end.

(** [pattern.search(s)] as a truth value. *)
Definition search (alts : list string) (s : string) : bool :=
  search_from alts None s.

(** [sorted(l, key=key, reverse=True)] and [l.sort(key=key, reverse=True)]:
    the stable sort into non-increasing key order.  Python guarantees
    stability also under [reverse=True], and the stable sorted
    rearrangement of a list is unique, so insertion from the right
    computes the list that Python's sort returns. *)
Fixpoint insert_desc {A} (key : A -> Q) (x : A) (l : list A) : list A :=
  match l with
  | [] => [x]
  | y :: l' =>
      if Qgtb (key y) (key x) then y :: insert_desc key x l' else x :: l
  end.

Definition sort_reverse {A} (key : A -> Q) (l : list A) : list A :=
  foldr (insert_desc key) [] l.

(** [enumerate(l)] *)
Definition enumerate {A} (l : list A) : list (nat * A) := imap pair l.

End Py.

(** ** The route as the routing provider returns it *)

Record Maneuver := mkManeuver {
  m_type : option string;
  m_modifier : option string;
  m_location : option (list Q)
}.

Record Step := mkStep {
  s_distance : option Q;
  s_duration : option Q;
  s_name : option string;
  s_ref : option string;
  s_maneuver : option Maneuver
}.

Record Leg := mkLeg { l_steps : option (list Step) }.

Record Geometry := mkGeometry {
  g_type : string;
  g_coordinates : list (list Q)
}.

Record Route := mkRoute {
  r_distance : option Q;
  r_duration : option Q;
  r_legs : option (list Leg);
  r_geometry : option Geometry
}.

(** [d.get(key, dflt)] *)
Definition get {A} (field : option A) (dflt : A) : A := default dflt field.

Definition empty_maneuver : Maneuver := mkManeuver None None None.

(** [f"{name} {ref}"] *)
Definition name_ref (name ref : string) : string :=
  (name ++ " " ++ ref)%string.

(** ** [app/services/safety_engine.py] *)

Module safety_engine.

Inductive SafetyMode := day | night.

Definition is_night (mode : SafetyMode) : bool :=
  match mode with night => true | day => false end.

(** [\b(NH|SH|National Highway|State Highway|Expressway|motorway|trunk)\b],
    [re.IGNORECASE] *)
Definition HIGHWAY_PATTERN : list string :=
  ["NH"; "SH"; "National Highway"; "State Highway"; "Expressway";
   "motorway"; "trunk"]%string.

(** The [penalties] dict: its five keys are always the same, so it is the
    record that [SafetyPenalties] declares. *)
Record Penalties := mkPenalties {
  road_type : Z;
  turn_density : Z;
  isolation : Z;
  duration : Z;
  traffic : Z
}.

(** [sum(penalties.values())] *)
Definition sum_values (p : Penalties) : Z :=
  (road_type p + turn_density p + isolation p + duration p + traffic p)%Z.

Record SafetyResult := mkSafetyResult {
  score : Q;
  highway_ratio : Q;
  res_turn_density : Q;
  longest_isolated_segment_km : Q;
  traffic_level : string;
  penalties : Penalties;
  distance_km : Q;
  duration_hours : Q
}.

(** Flatten all steps from all legs. *)
Definition _extract_steps (route : Route) : list Step :=
  fold_left (fun steps leg => steps ++ get (l_steps leg) [])
            (get (r_legs route) []) [].

(** Fraction of route distance on highway / expressway / trunk. *)
Definition _compute_highway_ratio (steps : list Step) (total_distance_m : Q) : Q :=
  if Py.Qleb total_distance_m 0 then 0
  else
    let highway_dist :=
      fold_left
        (fun highway_dist step =>
           let name := get (s_name step) ""%string in
           let ref := get (s_ref step) ""%string in
           let combined := name_ref name ref in
           if Py.search HIGHWAY_PATTERN combined
           then highway_dist + get (s_distance step) 0
           else highway_dist)
        steps 0 in
    highway_dist / total_distance_m.

Definition is_turn (s : Step) : bool :=
  let t := get (m_type (get (s_maneuver s) empty_maneuver)) ""%string in
  negb (String.eqb t "depart" || String.eqb t "arrive").

(** [sum(1 for s in steps if ... not in skip)] *)
Definition count_turns (steps : list Step) : nat :=
  length (List.filter is_turn steps).

(** Non-trivial maneuvers per kilometre. *)
Definition _compute_turn_density (steps : list Step) (total_distance_km : Q) : Q :=
  if Py.Qleb total_distance_km 0 then 0
  else
    let turns := count_turns steps in
    inject_Z (Z.of_nat turns) / total_distance_km.

Definition is_isolated (step : Step) : bool :=
  let name := Py.strip (get (s_name step) ""%string) in
  let ref := Py.strip (get (s_ref step) ""%string) in
  Py.is_empty name && Py.is_empty ref.

(** One iteration of the loop of [_compute_isolation] on the state
    [(current_run_m, longest_m)]. *)
Definition isolation_step (st : Q * Q) (step : Step) : Q * Q :=
  let '(current_run_m, longest_m) := st in
  if is_isolated step then
    (current_run_m + get (s_distance step) 0, longest_m)
  else
    let longest_m :=
      if Py.Qgtb current_run_m longest_m then current_run_m else longest_m in
    (0, longest_m).

(** Longest continuous segment (km) with no named / major road. *)
Definition _compute_isolation (steps : list Step) : Q :=
  let '(current_run_m, longest_m) := fold_left isolation_step steps (0, 0) in
  let longest_m :=
    if Py.Qgtb current_run_m longest_m then current_run_m else longest_m in
  longest_m / 1000.

(** Speed-based traffic classification. *)
Definition _classify_traffic (duration_s distance_m : Q) : string :=
  if Py.Qleb distance_m 0 || Py.Qleb duration_s 0 then "Moderate"%string
  else
    let avg_speed_kmh := (distance_m / 1000) / (duration_s / 3600) in
    if Py.Qgeb avg_speed_kmh 70 then "Low"%string
    else if Py.Qgeb avg_speed_kmh 45 then "Moderate"%string
    else "High"%string.

(** The penalties of [compute_safety] from the four metrics and the
    duration, in the order the function assigns them. *)
Definition compute_penalties (mode : SafetyMode)
    (highway_ratio turn_density longest_isolated_km total_duration_h : Q)
    (traffic_level : string) : Penalties :=
  (* A. Highway Ratio *)
  let p_road_type :=
    if Py.Qgtb highway_ratio 0.7 then 0%Z
    else if Py.Qgeb highway_ratio 0.4 then (-5)%Z
    else (-10)%Z in
  (* B. Turn Density *)
  let p_turn_density :=
    if Py.Qltb turn_density 1 then 0%Z
    else if Py.Qleb turn_density 2 then (-5)%Z
    else (-10)%Z in
  (* C. Isolation Risk *)
  let iso_penalty :=
    if Py.Qgtb longest_isolated_km 50 then (-15)%Z
    else if Py.Qgtb longest_isolated_km 20 then (-7)%Z
    else 0%Z in
  let iso_penalty :=
    if is_night mode then Py.int (inject_Z iso_penalty * 1.5) else iso_penalty in
  (* D. Duration Risk *)
  let p_duration :=
    if Py.Qgtb total_duration_h 8 then (-10)%Z
    else if Py.Qgtb total_duration_h 6 then (-5)%Z
    else 0%Z in
  (* E. Traffic Modifier *)
  let p_traffic :=
    if String.eqb traffic_level "High" then (-10)%Z
    else if String.eqb traffic_level "Moderate" then (-5)%Z
    else 0%Z in
  (* Night mode rural multiplier on road_type penalty *)
  let p_road_type :=
    if is_night mode && (p_road_type <? 0)%Z
    then Py.int (inject_Z p_road_type * 1.3)
    else p_road_type in
  mkPenalties p_road_type p_turn_density iso_penalty p_duration p_traffic.

Definition base : Z := 100.

(** [raw = base + sum(penalties.values())] *)
Definition raw_score (p : Penalties) : Z := (base + sum_values p)%Z.

(** Deterministic safety scoring. *)
Definition compute_safety (route : Route) (mode : SafetyMode) : SafetyResult :=
  let total_distance_m := get (r_distance route) 0 in
  let total_duration_s := get (r_duration route) 0 in
  let total_distance_km := total_distance_m / 1000 in
  let total_duration_h := total_duration_s / 3600 in
  let steps := _extract_steps route in
  let highway_ratio := _compute_highway_ratio steps total_distance_m in
  let turn_density := _compute_turn_density steps total_distance_km in
  let longest_isolated_km := _compute_isolation steps in
  let traffic_level := _classify_traffic total_duration_s total_distance_m in
  let penalties :=
    compute_penalties mode highway_ratio turn_density longest_isolated_km
                      total_duration_h traffic_level in
  let raw := raw_score penalties in
  let clamped := Py.max 10 raw in
  let normalised := Py.round (inject_Z clamped / 10) 1 in
  mkSafetyResult
    normalised
    (Py.round highway_ratio 3)
    (Py.round turn_density 2)
    (Py.round longest_isolated_km 1)
    traffic_level
    penalties
    (Py.round total_distance_km 1)
    (Py.round total_duration_h 2).

End safety_engine.

(** ** Exceptions and the effect of the pipeline *)

(** The exception classes that reach [route_endpoint].  [ValueError] and
    [RuntimeError] are the builtins; [HTTPStatusError] (raised by
    [raise_for_status]) and [TransportError] (raised by [client.get]) are
    httpx's, which derive from [httpx.HTTPError] and so from [Exception]
    only.  Each carries its [str(e)]. *)
Inductive Exn :=
| ValueError (msg : string)
| RuntimeError (msg : string)
| KeyError (msg : string)
| HTTPStatusError (msg : string)
| TransportError (msg : string).

(** [str(e)] *)
Definition exn_str (e : Exn) : string :=
  match e with
  | ValueError m | RuntimeError m | KeyError m
  | HTTPStatusError m | TransportError m => m
  end.

(** [isinstance(e, ValueError)] *)
Definition is_ValueError (e : Exn) : bool :=
  match e with ValueError _ => true | _ => false end.

(** [isinstance(e, RuntimeError)] *)
Definition is_RuntimeError (e : Exn) : bool :=
  match e with RuntimeError _ => true | _ => false end.

Definition Coords : Type := Q * Q.

(** The state is the module-level [_geocode_cache]. *)
Definition Cache : Type := gmap string Coords.

(** A computation that reads and writes the cache and returns or raises. *)
Definition M (A : Type) : Type := Cache -> (Exn + A) * Cache.

Definition ret {A} (a : A) : M A := fun c => (inr a, c).
Definition raise {A} (e : Exn) : M A := fun c => (inl e, c).
Definition bind {A B} (m : M A) (k : A -> M B) : M B :=
  fun c => match m c with
           | (inl e, c') => (inl e, c')
           | (inr a, c') => k a c'
           end.

Notation "'let!' x ':=' m 'in' k" := (bind m (fun x => k))
  (at level 10, x binder, m at level 200, k at level 200).

(** [for x in l: body(x)], collecting what the bodies return. *)
Fixpoint for_each {A B} (body : A -> M B) (l : list A) : M (list B) :=
  match l with
  | [] => ret []
  | x :: l' =>
      let! y := body x in
      let! ys := for_each body l' in
      ret (y :: ys)
  end.

(** The replies of the two external services, as httpx hands them over. *)

Record GeoHit := mkGeoHit { hit_lat : Q; hit_lon : Q }.

Inductive GeoReply :=
| GeoNoResponse (msg : string)                 (* [client.get] raises *)
| GeoResponse (status : Z) (reason : string) (data : list GeoHit).

Record OsrmBody := mkOsrmBody {
  o_code : option string;
  o_message : option string;
  o_routes : option (list Route)
}.

Inductive OsrmReply :=
| OsrmNoResponse (msg : string)                (* [client.get] raises *)
| OsrmResponse (status : Z) (reason : string) (data : OsrmBody).

(** [resp.is_success]: [raise_for_status] raises unless it holds. *)
Definition is_success (status : Z) : bool :=
  (200 <=? status)%Z && (status <=? 299)%Z.

(** ** [app/services/route_service.py] *)

Module route_service.

Import safety_engine.

(** Common Indian cities pre-seeded to reduce Nominatim calls *)
Definition _SEED_CACHE : list (string * Coords) :=
  [
   ("delhi", (28.6139, 77.2090)); ("new delhi", (28.6139, 77.2090));
   ("mumbai", (19.0760, 72.8777)); ("bangalore", (12.9716, 77.5946));
   ("bengaluru", (12.9716, 77.5946)); ("chennai", (13.0827, 80.2707));
   ("kolkata", (22.5726, 88.3639)); ("hyderabad", (17.3850, 78.4867));
   ("pune", (18.5204, 73.8567)); ("jaipur", (26.9124, 75.7873));
   ("ahmedabad", (23.0225, 72.5714)); ("lucknow", (26.8467, 80.9462));
   ("agra", (27.1767, 78.0081)); ("varanasi", (25.3176, 82.9739));
   ("goa", (15.2993, 74.1240)); ("udaipur", (24.5854, 73.7125));
   ("jodhpur", (26.2389, 73.0243)); ("amritsar", (31.6340, 74.8723));
   ("shimla", (31.1048, 77.1734)); ("manali", (32.2396, 77.1887));
   ("rishikesh", (30.0869, 78.2676)); ("haridwar", (29.9457, 78.1642));
   ("mysore", (12.2958, 76.6394)); ("mysuru", (12.2958, 76.6394));
   ("kochi", (9.9312, 76.2673)); ("thiruvananthapuram", (8.5241, 76.9366));
   ("chandigarh", (30.7333, 76.7794)); ("indore", (22.7196, 75.8577));
   ("bhopal", (23.2599, 77.4126)); ("nagpur", (21.1458, 79.0882));
   ("surat", (21.1702, 72.8311)); ("coimbatore", (11.0168, 76.9558));
   ("visakhapatnam", (17.6868, 83.2185)); ("patna", (25.6093, 85.1376));
   ("ranchi", (23.3441, 85.3096)); ("dehradun", (30.3165, 78.0322));
   ("guwahati", (26.1445, 91.7362)); ("bhubaneswar", (20.2961, 85.8245));
   ("trivandrum", (8.5241, 76.9366)); ("madurai", (9.9252, 78.1198));
   ("jaisalmer", (26.9157, 70.9083)); ("pushkar", (26.4900, 74.5513));
   ("mathura", (27.4924, 77.6737)); ("leh", (34.1526, 77.5771));
   ("srinagar", (34.0837, 74.7973)); ("darjeeling", (27.0360, 88.2627));
   ("gangtok", (27.3389, 88.6065)); ("ooty", (11.4102, 76.6950));
   ("kodaikanal", (10.2381, 77.4892)); ("mount abu", (24.5926, 72.7156));
   ("nainital", (29.3803, 79.4636)); ("mussoorie", (30.4598, 78.0644))
  ]%string.

(** The cache once the module is loaded: [_geocode_cache.update(_SEED_CACHE)]. *)
Definition _geocode_cache : Cache := list_to_map _SEED_CACHE.

(** [\b(NH|SH|National Highway|State Highway|Expressway)\b], [re.IGNORECASE] *)
Definition HIGHWAY_PATTERN : list string :=
  ["NH"; "SH"; "National Highway"; "State Highway"; "Expressway"]%string.

Record NavManeuver := mkNavManeuver {
  nm_type : string;
  nm_modifier : string;
  nm_location : list Q
}.

Record NavStep := mkNavStep {
  ns_distance : Q;
  ns_duration : Q;
  ns_name : string;
  ns_ref : string;
  ns_maneuver : NavManeuver
}.

Record RouteSummary := mkRouteSummary {
  rs_distance_km : Q;
  rs_duration_hours : Q
}.

Record Breakdown := mkBreakdown {
  b_highway_ratio : Q;
  b_turn_density : Q;
  b_longest_isolated_segment_km : Q;
  b_traffic_level : string;
  b_penalties : Penalties
}.

(** One element of [processed]. *)
Record RouteInfo := mkRouteInfo {
  id : string;
  name : string;
  ri_distance_km : Q;
  duration_minutes : Q;
  safety_score : Q;
  road_summary : string;
  ri_traffic_level : string;
  road_quality : string;
  geometry : Geometry;
  steps : list NavStep;
  route_summary : RouteSummary;
  breakdown : Breakdown
}.

Record RouteResponse := mkRouteResponse {
  routes : list RouteInfo;
  origin_coords : Coords;
  destination_coords : Coords;
  status : string
}.

(** The loop of [classify_road_quality] on [(highway_dist, total_dist)]. *)
Definition quality_step (st : Q * Q) (step : Step) : Q * Q :=
  let '(highway_dist, total_dist) := st in
  let name := get (s_name step) ""%string in
  let ref := get (s_ref step) ""%string in
  let d := get (s_distance step) 0 in
  let total_dist := total_dist + d in
  if Py.search HIGHWAY_PATTERN (name_ref name ref)
  then (highway_dist + d, total_dist)
  else (highway_dist, total_dist).

(** Estimate road quality from highway segment prevalence. *)
Definition classify_road_quality (route : Route) : string :=
  let legs := get (r_legs route) [] in
  let steps := fold_left (fun steps leg => steps ++ get (l_steps leg) []) legs [] in
  let '(highway_dist, total_dist) := fold_left quality_step steps (0, 0) in
  if Py.Qleb total_dist 0 then "Average"%string
  else
    let ratio := highway_dist / total_dist in
    if Py.Qgeb ratio 0.6 then "Excellent"%string
    else if Py.Qgeb ratio 0.3 then "Good"%string
    else "Average"%string.

(** Extract lean maneuver data from OSRM steps for navigation. *)
Definition extract_navigation_steps (route : Route) : list NavStep :=
  fold_left
    (fun steps leg =>
       fold_left
         (fun steps step =>
            let m := get (s_maneuver step) empty_maneuver in
            steps ++
              [mkNavStep (get (s_distance step) 0)
                         (get (s_duration step) 0)
                         (get (s_name step) ""%string)
                         (get (s_ref step) ""%string)
                         (mkNavManeuver (get (m_type m) ""%string)
                                        (get (m_modifier m) ""%string)
                                        (get (m_location m) []))])
         (get (l_steps leg) []) steps)
    (get (r_legs route) []) [].

(** [road_distances[name] = road_distances.get(name, 0) + d] on a dict,
    which keeps its keys in insertion order. *)
Fixpoint add_distance (name : string) (d : Q) (road_distances : list (string * Q))
  : list (string * Q) :=
  match road_distances with
  | [] => [(name, 0 + d)]
  | (n, x) :: rest =>
      if String.eqb n name then (n, x + d) :: rest
      else (n, x) :: add_distance name d rest
  end.

(** [max(d, key=d.get)]: the first key whose value no other exceeds. *)
Fixpoint max_key (road_distances : list (string * Q)) (best : string * Q) : string :=
  match road_distances with
  | [] => best.1
  | (n, x) :: rest =>
      if Py.Qgtb x best.2 then max_key rest (n, x) else max_key rest best
  end.

(** Extract the most prominent road name from steps. *)
Definition extract_road_summary (route : Route) : string :=
  let legs := get (r_legs route) [] in
  let road_distances :=
    fold_left
      (fun rd leg =>
         fold_left
           (fun rd step =>
              let name := Py.strip (get (s_name step) ""%string) in
              if negb (Py.is_empty name)
              then add_distance name (get (s_distance step) 0) rd
              else rd)
           (get (l_steps leg) []) rd)
      legs [] in
  match road_distances with
  | [] => "Local Roads"%string
  | first :: others =>
      (* Try to find an NH/SH specifically *)
      match List.find (fun item => Py.search HIGHWAY_PATTERN item.1)
                      (Py.sort_reverse snd road_distances) with
      | Some (name, _) => name
      | None =>
          (* Fallback: longest road *)
          max_key others first
      end
  end.

Definition default_geometry : Geometry := mkGeometry "LineString" [].

Definition name_labels : list string :=
  ["Recommended Route"; "Scenic Route"; "Shortest Route"]%string.

Definition set_name (r : RouteInfo) (n : string) : RouteInfo :=
  mkRouteInfo (id r) n (ri_distance_km r) (duration_minutes r)
              (safety_score r) (road_summary r) (ri_traffic_level r)
              (road_quality r) (geometry r) (steps r) (route_summary r)
              (breakdown r).

(** The body of the scoring loop of [get_routes] for the [i]-th raw route. *)
Definition process_route (mode : SafetyMode) (ir : nat * Route) : M RouteInfo :=
  let '(i, route) := ir in
  let safety_result := compute_safety route mode in
  let distance_km := distance_km safety_result in
  match r_duration route with
  | None => raise (KeyError "'duration'")
  | Some route_duration =>
      let duration_min := Py.round (route_duration / 60) 0 in
      let quality := classify_road_quality route in
      let summary := extract_road_summary route in
      let geometry := get (r_geometry route) default_geometry in
      let nav_steps := extract_navigation_steps route in
      ret (mkRouteInfo
             ("route_" ++ Py.str_of_nat (i + 1))
             ""
             distance_km
             duration_min
             (score safety_result)
             summary
             (traffic_level safety_result)
             quality
             geometry
             nav_steps
             (mkRouteSummary (safety_engine.distance_km safety_result)
                             (duration_hours safety_result))
             (mkBreakdown (highway_ratio safety_result)
                          (res_turn_density safety_result)
                          (longest_isolated_segment_km safety_result)
                          (traffic_level safety_result)
                          (penalties safety_result)))
  end.

(** Step 4 of [get_routes]: sort by safety descending. *)
Definition rank (processed : list RouteInfo) : list RouteInfo :=
  Py.sort_reverse safety_score processed.

(** Step 5 of [get_routes]: assign names by position. *)
Definition assign_names (processed : list RouteInfo) : list RouteInfo :=
  imap (fun i route =>
          set_name route
            (match name_labels !! i with
             | Some label => label
             | None => ("Route " ++ Py.str_of_nat (i + 1))%string
             end))
       processed.

Section Services.

(** The geocoder's reply to the query [q], and the router's reply to a
    pair of (lat, lng) points. *)
Variable nominatim : string -> GeoReply.
Variable osrm : Coords -> Coords -> OsrmReply.

(** Convert a place name to (lat, lng). Uses in-memory cache. *)
Definition geocode (place_name : string) : M Coords :=
  fun cache =>
    let key := Py.lower (Py.strip place_name) in
    match cache !! key with
    | Some coords => (inr coords, cache)
    | None =>
        match nominatim (place_name ++ ", India")%string with
        | GeoNoResponse msg => (inl (TransportError msg), cache)
        | GeoResponse status reason data =>
            if negb (is_success status)
            then (inl (HTTPStatusError reason), cache)
            else
              match data with
              | [] =>
                  (inl (ValueError ("Could not geocode '" ++ place_name
                          ++ "'. Please check the city name.")%string),
                   cache)
              | hit :: _ =>
                  let lat := hit_lat hit in
                  let lng := hit_lon hit in
                  (inr (lat, lng), <[key := (lat, lng)]> cache)
              end
        end
    end.

(** Fetch 2-3 alternative routes from OSRM. *)
Definition fetch_osrm_routes (from_lat from_lng to_lat to_lng : Q)
  : M (list Route) :=
  match osrm (from_lat, from_lng) (to_lat, to_lng) with
  | OsrmNoResponse msg => raise (TransportError msg)
  | OsrmResponse status reason data =>
      if negb (is_success status) then raise (HTTPStatusError reason)
      else if negb (bool_decide (o_code data = Some "Ok"%string))
      then raise (RuntimeError
                    ("OSRM error: " ++ get (o_message data) "Unknown error")%string)
      else ret (get (o_routes data) [])
  end.

(** Full pipeline: geocode -> OSRM -> safety engine -> structured response. *)
Definition get_routes (origin destination : string) (mode : SafetyMode)
  : M RouteResponse :=
  (* 1. Geocode *)
  let! from_coords := geocode origin in
  let! to_coords := geocode destination in
  (* 2. Fetch OSRM routes *)
  let! raw_routes :=
    fetch_osrm_routes from_coords.1 from_coords.2 to_coords.1 to_coords.2 in
  match raw_routes with
  | [] => raise (RuntimeError "No routes found between these locations.")
  | _ :: _ =>
      (* 3. Process each route through safety engine *)
      let! processed :=
        for_each (process_route mode) (Py.enumerate (take 3 raw_routes)) in
      (* 4. Sort by safety descending *)
      let processed := rank processed in
      (* 5. Assign names *)
      let processed := assign_names processed in
      ret (mkRouteResponse processed from_coords to_coords "success")
  end.

End Services.

End route_service.

(** ** [app/routers/route.py] *)

Module route.

Import safety_engine route_service.

Record RouteRequest := mkRouteRequest {
  origin : string;
  destination : string;
  mode : string
}.

(** What the endpoint gives the framework: the result, or
    [HTTPException(status_code, detail)]. *)
Inductive HttpResult :=
| Ok (result : RouteResponse)
| HTTPException (status_code : Z) (detail : string).

Definition status_code_of (r : HttpResult) : Z :=
  match r with Ok _ => 200 | HTTPException c _ => c end.

(** [mode = request.mode.strip().lower() if request.mode else "day"],
    then the membership test in [("day", "night")]. *)
Definition validate_mode (request : RouteRequest) : option SafetyMode :=
  let mode :=
    if negb (Py.is_empty (mode request))
    then Py.lower (Py.strip (mode request)) else "day"%string in
  if String.eqb mode "day" then Some day
  else if String.eqb mode "night" then Some night
  else None.

(** The [except] clauses around [get_routes], tried in order. *)
Definition except_clauses (e : Exn) : HttpResult :=
  if is_ValueError e then
    (* Geocoding failure (bad city name) *)
    HTTPException 422 (exn_str e)
  else if is_RuntimeError e then
    (* OSRM failure *)
    HTTPException 502 (exn_str e)
  else
    HTTPException 500 ("Unexpected error: " ++ exn_str e)%string.

Section Services.

Variable nominatim : string -> GeoReply.
Variable osrm : Coords -> Coords -> OsrmReply.

Definition route_endpoint (request : RouteRequest) (cache : Cache)
  : HttpResult * Cache :=
  if Py.is_empty (Py.strip (origin request))
     || Py.is_empty (Py.strip (destination request))
  then (HTTPException 422 "Origin and destination are required.", cache)
  else
    (* Validate mode *)
    match validate_mode request with
    | None => (HTTPException 422 "Mode must be 'day' or 'night'.", cache)
    | Some mode =>
        match get_routes nominatim osrm
                (Py.strip (origin request)) (Py.strip (destination request))
                mode cache with
        | (inr result, cache') => (Ok result, cache')
        | (inl e, cache') => (except_clauses e, cache')
        end
    end.

End Services.

End route.

(** ** Quantities the properties are stated with *)

Module Metrics.

Import safety_engine.

Definition step_distance (s : Step) : Q := get (s_distance s) 0.

(** The sum of the distances of the given steps. *)
Definition total_step_distance (steps : list Step) : Q :=
  foldr (fun s acc => step_distance s + acc) 0 steps.

(** Whether the pattern [alts] finds a match in the step's [name ref] text. *)
Definition on_highway (alts : list string) (s : Step) : bool :=
  Py.search alts (name_ref (get (s_name s) ""%string) (get (s_ref s) ""%string)).

(** The distance travelled on steps that the pattern [alts] matches. *)
Definition highway_distance (alts : list string) (steps : list Step) : Q :=
  total_step_distance (List.filter (on_highway alts) steps).

(** The thresholds of [classify_road_quality]. *)
Definition quality_of_ratio (ratio : Q) : string :=
  if Py.Qgeb ratio 0.6 then "Excellent"%string
  else if Py.Qgeb ratio 0.3 then "Good"%string
  else "Average"%string.

(** Every step is unnamed: no road name and no reference. *)
Definition all_isolated (steps : list Step) : Prop :=
  Forall (fun s => is_isolated s = true) steps.

(** Non-increasing key order. *)
Definition descending {A} (key : A -> Q) : list A -> Prop :=
  StronglySorted (fun a b => key b <= key a).

(** The elements of [l] whose key is [s], in the order they have in [l]. *)
Definition with_key {A} (key : A -> Q) (s : Q) (l : list A) : list A :=
  List.filter (fun a => Qeq_bool (key a) s) l.

(** The ids that [get_routes] can give, in the provider's order. *)
Definition route_ids : list string := ["route_1"; "route_2"; "route_3"]%string.

(** The route of the scoring scenario: 520 km, 8 hours, highway ratio 0.8,
    three turns, longest isolated stretch 10 km. *)
Definition is_scenario_route (route : Route) : Prop :=
  let steps := _extract_steps route in
  get (r_distance route) 0 == 520000
  /\ get (r_duration route) 0 == 28800
  /\ _compute_highway_ratio steps (get (r_distance route) 0) == 0.8
  /\ count_turns steps = 3%nat
  /\ _compute_isolation steps == 10.

End Metrics.

(** ** The ways the two external calls can fail *)

Module Failures.

Inductive GeoFailure :=
| GeoTransport      (* no response: connection error, timeout *)
| GeoHttpStatus     (* a response whose status is not a success *)
| GeoEmptyResult.   (* a successful response with no match *)

Definition geo_failure (reply : GeoReply) : option GeoFailure :=
  match reply with
  | GeoNoResponse _ => Some GeoTransport
  | GeoResponse status _ data =>
      if is_success status
      then match data with [] => Some GeoEmptyResult | _ :: _ => None end
      else Some GeoHttpStatus
  end.

Inductive RoutingFailure :=
| RoutingTransport        (* no response *)
| RoutingHttpStatus       (* a response whose status is not a success *)
| RoutingCodeNotOk        (* a successful response whose body code is not "Ok" *)
| RoutingZeroCandidates.  (* code "Ok" and no route *)

Definition routing_failure (reply : OsrmReply) : option RoutingFailure :=
  match reply with
  | OsrmNoResponse _ => Some RoutingTransport
  | OsrmResponse status _ data =>
      if is_success status
      then if bool_decide (o_code data = Some "Ok"%string)
           then match get (o_routes data) [] with
                | [] => Some RoutingZeroCandidates
                | _ :: _ => None
                end
           else Some RoutingCodeNotOk
      else Some RoutingHttpStatus
  end.

(** The status [route_endpoint] answers with, by kind of failure. *)
Definition geo_failure_status (f : GeoFailure) : Z :=
  match f with
  | GeoEmptyResult => 422
  | GeoTransport | GeoHttpStatus => 500
  end.

Definition routing_failure_status (f : RoutingFailure) : Z :=
  match f with
  | RoutingCodeNotOk | RoutingZeroCandidates => 502
  | RoutingTransport | RoutingHttpStatus => 500
  end.

(** A request that passes the checks at the top of [route_endpoint]. *)
Definition valid_request (request : route.RouteRequest)
    (mode : safety_engine.SafetyMode) : Prop :=
  Py.is_empty (Py.strip (route.origin request)) = false
  /\ Py.is_empty (Py.strip (route.destination request)) = false
  /\ route.validate_mode request = Some mode.

(** The key under which [geocode] caches a place name. *)
Definition cache_key (place_name : string) : string :=
  Py.lower (Py.strip place_name).

(** The candidate of the response that [info] was made from: the same
    record up to the name given after ranking. *)
Definition made_from (info processed : route_service.RouteInfo) : Prop :=
  info = route_service.set_name processed (route_service.name info).

End Failures.

(** ** Concrete inputs used by the examples below *)

Module Samples.

Import safety_engine route_service route.

Definition step (type name ref : string) (distance : Q) : Step :=
  mkStep (Some distance) (Some 0) (Some name) (Some ref)
         (Some (mkManeuver (Some type) None None)).

Definition one_leg (distance duration : Q) (steps : list Step) : Route :=
  mkRoute (Some distance) (Some duration) (Some [mkLeg (Some steps)]) None.

(** 520 km in 8 h: 416 km of NH 48, a 10 km unnamed stretch, three turns. *)
Definition long_highway_route : Route :=
  one_leg 520000 28800
    [ step "depart" "NH 48" "" 416000;
      step "turn" "" "" 10000;
      step "turn" "MG Road" "" 50000;
      step "turn" "Station Road" "" 44000;
      step "arrive" "Station Road" "" 0 ].

(** 1 km along the Grand Trunk Road. *)
Definition trunk_route : Route :=
  one_leg 1000 120
    [ step "depart" "Grand Trunk Road" "" 1000;
      step "arrive" "Grand Trunk Road" "" 0 ].

(** A route whose [distance] field is 1 km but whose single, unnamed step
    is 400 m long. *)
Definition short_steps_route : Route :=
  one_leg 1000 120 [ step "depart" "" "" 400 ].

(** 3 km, all of it unnamed, in two steps. *)
Definition unnamed_route : Route :=
  one_leg 3000 300 [ step "depart" "" "" 1000; step "arrive" "  " "" 2000 ].

(** 52 km of unnamed track in 130 turns, 10 hours. *)
Definition worst_route : Route :=
  one_leg 52000 36000 (replicate 130 (step "turn" "" "" 400)).

(** 30 km of village roads: the road_type penalty applies by day. *)
Definition village_route : Route :=
  one_leg 30000 1800
    [ step "depart" "Mill Lane" "" 5000;
      step "turn" "" "" 25000;
      step "arrive" "Temple Street" "" 0 ].

Definition jaipur_hit : GeoHit := mkGeoHit 26.9124 75.7873.

(** A geocoder that knows nothing. *)
Definition nominatim_empty (q : string) : GeoReply := GeoResponse 200 "OK" [].

(** A geocoder that cannot be reached. *)
Definition nominatim_down (q : string) : GeoReply :=
  GeoNoResponse "All connection attempts failed".

(** A geocoder that answers 503. *)
Definition nominatim_503 (q : string) : GeoReply :=
  GeoResponse 503 "Server error '503 Service Unavailable'" [].

Definition osrm_down (a b : Coords) : OsrmReply :=
  OsrmNoResponse "All connection attempts failed".

Definition osrm_500 (a b : Coords) : OsrmReply :=
  OsrmResponse 500 "Server error '500 Internal Server Error'"
               (mkOsrmBody None None None).

Definition osrm_no_route (a b : Coords) : OsrmReply :=
  OsrmResponse 200 "OK"
    (mkOsrmBody (Some "NoRoute") (Some "Impossible route between points") None)%string.

Definition osrm_zero_routes (a b : Coords) : OsrmReply :=
  OsrmResponse 200 "OK" (mkOsrmBody (Some "Ok"%string) None (Some [])).

(** A router that offers four alternatives, the safest one second. *)
Definition osrm_four (a b : Coords) : OsrmReply :=
  OsrmResponse 200 "OK"
    (mkOsrmBody (Some "Ok"%string) None
       (Some [village_route; long_highway_route; trunk_route; unnamed_route])).

Definition delhi_jaipur : RouteRequest := mkRouteRequest "Delhi" " Jaipur " "Day".

Definition atlantis_jaipur : RouteRequest := mkRouteRequest "Atlantis" "Jaipur" "day".

End Samples.

(** ** [app/services/groq_service.py] and [app/routers/chat.py] *)

Module groq_service.

Record Message := mkMessage { role : string; content : string }.

(** [ChatResponse]: [status] defaults to "success". *)
Record ChatResponse := mkChatResponse { reply : string; status : string }.

(** The JSON body posted to the completion API. *)
Record Payload := mkPayload {
  model : string;
  messages : list (string * string);     (* role, content *)
  temperature : Q;
  max_tokens : Z
}.

(** What [client.post] and the reading of the reply come to: no response
    ([str(e)] of the exception), or a response with its status code and,
    for [data["choices"][0]["message"]["content"]], either the content or
    [str(e)] of the exception that reading it raises. *)
Inductive GroqReply :=
| GroqNoResponse (msg : string)
| GroqResponse (status_code : Z) (body : string + string).

(** [str(n)] for an integer. *)
Definition str_of_int (n : Z) : string :=
  if (n <? 0)%Z then ("-" ++ Py.str_of_nat (Z.abs_nat n))%string
  else Py.str_of_nat (Z.to_nat n).

(** [l[-6:]] *)
Definition last_six {A} (l : list A) : list A := drop (length l - 6) l.

Section Settings.

(** [settings.GROQ_API_KEY], read from the environment; the module's
    [SYSTEM_PROMPT] text; and the completion API as a function of the
    headers and the payload it is sent. *)
Variable GROQ_API_KEY : string.
Variable SYSTEM_PROMPT : string.
Variable groq : list (string * string) -> Payload -> GroqReply.

Definition headers : list (string * string) :=
  [("Authorization", "Bearer " ++ GROQ_API_KEY);
   ("Content-Type", "application/json")]%string.

Definition build_payload (msgs : list Message) : Payload :=
  (* Keep only last 6 messages *)
  let conversation := map (fun m => (role m, content m)) (last_six msgs) in
  (* Prepend System Prompt *)
  let full_messages := ("system"%string, SYSTEM_PROMPT) :: conversation in
  mkPayload "llama-3.1-8b-instant" full_messages 0.7 4096.

Definition get_groq_response (msgs : list Message) : ChatResponse :=
  if Py.is_empty GROQ_API_KEY then
    mkChatResponse "Server Config Error: Groq API Key missing." "error"
  else
    match groq headers (build_payload msgs) with
    | GroqResponse status_code body =>
        if negb (is_success status_code) then
          (* except httpx.HTTPStatusError *)
          mkChatResponse ("API Error: " ++ str_of_int status_code) "error"
        else
          match body with
          | inr content => mkChatResponse content "success"
          | inl msg => mkChatResponse ("Connection Error: " ++ msg) "error"
          end
    | GroqNoResponse msg =>
        (* except Exception *)
        mkChatResponse ("Connection Error: " ++ msg) "error"
    end.

(** [chat_endpoint]: the request's messages are handed to the service. *)
Definition chat_endpoint (request_messages : list Message) : ChatResponse :=
  get_groq_response request_messages.

End Settings.

End groq_service.

(** ** Further notions the properties are stated with *)

Module Notions.

Import safety_engine route_service.

(** The lean projection of a raw step that navigation receives. *)
Definition lean_step (step : Step) : NavStep :=
  let m := get (s_maneuver step) empty_maneuver in
  mkNavStep (get (s_distance step) 0)
            (get (s_duration step) 0)
            (get (s_name step) ""%string)
            (get (s_ref step) ""%string)
            (mkNavManeuver (get (m_type m) ""%string)
                           (get (m_modifier m) ""%string)
                           (get (m_location m) [])).

(** Every character of the text is whitespace (so also the empty text). *)
Fixpoint blank (s : string) : bool :=
  match s with
  | EmptyString => true
  | String c s' => Py.is_space c && blank s'
  end.

(** No step has a negative distance. *)
Definition distances_nonneg (steps : list Step) : Prop :=
  Forall (fun s => 0 <= Metrics.step_distance s) steps.

(** The road name of a step as [extract_road_summary] reads it. *)
Definition road_name (s : Step) : string := Py.strip (get (s_name s) ""%string).

(** The road names of a route, blank ones left out, in step order. *)
Definition road_names (route : Route) : list string :=
  List.filter (fun n => negb (Py.is_empty n)) (map road_name (_extract_steps route)).

(** The loop body of [extract_road_summary]. *)
Definition summary_step (rd : list (string * Q)) (step : Step) : list (string * Q) :=
  let name := Py.strip (get (s_name step) ""%string) in
  if negb (Py.is_empty name)
  then add_distance name (get (s_distance step) 0) rd
  else rd.

(** [c.lower()] on a character that may be absent. *)
Definition lower_opt (c : option ascii) : option ascii :=
  match c with Some a => Some (Py.lower_ascii a) | None => None end.

(** The larger of two rationals. *)
Definition Qlarger (x y : Q) : Q := if Py.Qgtb x y then x else y.

(** The statuses [route_endpoint] can answer with. *)
Definition endpoint_statuses : list Z := [200; 422; 502; 500]%Z.

End Notions.

(** ** Further concrete inputs *)

Module MoreSamples.

Import safety_engine route_service route groq_service Samples.

(** A candidate whose JSON object has no [duration]. *)
Definition no_duration_route : Route :=
  mkRoute (Some 1000) None (Some [mkLeg (Some [step "depart" "MG Road" "" 1000])]) None.

Definition osrm_no_duration (a b : Coords) : OsrmReply :=
  OsrmResponse 200 "OK"
    (mkOsrmBody (Some "Ok"%string) None (Some [long_highway_route; no_duration_route])).

(** Two unnamed stretches of 3 km and 5 km around a named road. *)
Definition split_steps : list Step :=
  [ step "depart" "" "" 1000; step "turn" "" "" 2000;
    step "turn" "Ring Road" "" 4000;
    step "turn" "" "" 5000 ].

Definition ring_road : Step := step "turn" "Ring Road" "" 4000.

Definition nominatim_jaipur (q : string) : GeoReply :=
  GeoResponse 200 "OK" [jaipur_hit].

Definition eight_messages : list Message :=
  map (fun n => mkMessage "user" (Py.str_of_nat n)) (seq 1 8).

Definition groq_ok (h : list (string * string)) (p : Payload) : GroqReply :=
  GroqResponse 200 (inr "Namaste!"%string).

Definition groq_429 (h : list (string * string)) (p : Payload) : GroqReply :=
  GroqResponse 429 (inl ""%string).

End MoreSamples.

(** * Properties *)

(** ** Rounding and comparison helpers *)

Module PyFacts.

Lemma Qltb_lt (x y : Q) : Py.Qltb x y = true <-> x < y.
Proof.
  unfold Py.Qltb. rewrite negb_true_iff, <- not_true_iff_false, Qle_bool_iff.
  split; [apply Qnot_le_lt | apply Qlt_not_le].
Qed.

Lemma Qgtb_gt (x y : Q) : Py.Qgtb x y = true <-> y < x.
Proof. apply Qltb_lt. Qed.

Lemma Qleb_le (x y : Q) : Py.Qleb x y = true <-> x <= y.
Proof. apply Qle_bool_iff. Qed.

Lemma Qgeb_ge (x y : Q) : Py.Qgeb x y = true <-> y <= x.
Proof. apply Qle_bool_iff. Qed.

Lemma Qgtb_false (x y : Q) : Py.Qgtb x y = false <-> x <= y.
Proof.
  unfold Py.Qgtb. rewrite negb_false_iff. apply Qle_bool_iff.
Qed.

#[export] Instance Qleb_proper : Proper (Qeq ==> Qeq ==> eq) Py.Qleb.
Proof. intros x x' Hx y y' Hy. unfold Py.Qleb. now rewrite Hx, Hy. Qed.

#[export] Instance Qgeb_proper : Proper (Qeq ==> Qeq ==> eq) Py.Qgeb.
Proof. intros x x' Hx y y' Hy. unfold Py.Qgeb. now rewrite Hx, Hy. Qed.

#[export] Instance Qltb_comp : Proper (Qeq ==> Qeq ==> eq) Py.Qltb.
Proof. intros x x' Hx y y' Hy. unfold Py.Qltb. now rewrite Hx, Hy. Qed.

#[export] Instance Qgtb_comp : Proper (Qeq ==> Qeq ==> eq) Py.Qgtb.
Proof. intros x x' Hx y y' Hy. unfold Py.Qgtb. now rewrite Hx, Hy. Qed.

#[export] Instance round_half_even_comp : Proper (Qeq ==> eq) Py.round_half_even.
Proof.
  intros x y Hxy. unfold Py.round_half_even.
  rewrite (Qfloor_comp _ _ Hxy).
  assert (Hd : x - inject_Z (Qfloor y) == y - inject_Z (Qfloor y))
    by now rewrite Hxy.
  now rewrite !Hd.
Qed.

Lemma round_half_even_Z (z : Z) : Py.round_half_even (inject_Z z) = z.
Proof.
  unfold Py.round_half_even. rewrite Qfloor_Z.
  assert (Hd : inject_Z z - inject_Z z == 0) by ring.
  rewrite Hd. reflexivity.
Qed.

#[export] Instance round_comp n : Proper (Qeq ==> Qeq) (fun x => Py.round x n).
Proof.
  intros x y Hxy. unfold Py.round.
  assert (H : x * inject_Z (10 ^ Z.of_nat n) == y * inject_Z (10 ^ Z.of_nat n))
    by now rewrite Hxy.
  now rewrite H.
Qed.

(** Rounding to one decimal leaves a whole number of tenths alone. *)
Lemma round_tenths (z : Z) : Py.round (inject_Z z / 10) 1 == inject_Z z / 10.
Proof.
  unfold Py.round.
  assert (H : inject_Z z / 10 * inject_Z (10 ^ Z.of_nat 1) == inject_Z z)
    by (change (inject_Z (10 ^ Z.of_nat 1)) with 10; field).
  rewrite H, round_half_even_Z. reflexivity.
Qed.

End PyFacts.

(** ** The penalty model *)

Module SafetyFacts.

Import safety_engine PyFacts.

(** Every case of the penalty rules, decided by computation. *)
Ltac penalty_cases :=
  unfold compute_penalties, raw_score, sum_values, base, is_night;
  repeat match goal with
         | |- context [if ?b then _ else _] =>
             match b with
             | Py.Qgtb _ _ => destruct b
             | Py.Qgeb _ _ => destruct b
             | Py.Qltb _ _ => destruct b
             | Py.Qleb _ _ => destruct b
             | String.eqb _ _ => destruct b
             end
         | m : SafetyMode |- _ => destruct m
         end;
  vm_compute; try (split; congruence); try congruence; try lia.

Lemma raw_score_bounds mode hr td iso dur tl :
  (35 <= raw_score (compute_penalties mode hr td iso dur tl) <= 100)%Z.
Proof. penalty_cases. Qed.

Lemma raw_score_day_bounds hr td iso dur tl :
  (45 <= raw_score (compute_penalties day hr td iso dur tl))%Z.
Proof. penalty_cases. Qed.

Lemma penalties_nonpositive mode hr td iso dur tl :
  let p := compute_penalties mode hr td iso dur tl in
  (road_type p <= 0 /\ turn_density p <= 0 /\ isolation p <= 0
   /\ duration p <= 0 /\ traffic p <= 0)%Z.
Proof. cbv zeta. repeat split; penalty_cases. Qed.

Lemma score_eq (route : Route) (mode : SafetyMode) :
  score (compute_safety route mode)
  == inject_Z (Py.max 10 (raw_score (penalties (compute_safety route mode)))) / 10.
Proof. unfold compute_safety. cbn [score penalties]. apply round_tenths. Qed.

End SafetyFacts.

Module SafetyScore.

Import safety_engine PyFacts SafetyFacts.

(** C1: for every route and every mode the [safety_score] that
    [compute_safety] returns is the raw total [100 + sum(penalties)],
    clamped below at 10 and divided by 10, and it lies between 1.0 and
    10.0. *)
Theorem safety_score_in_range (route : Route) (mode : SafetyMode) :
  let raw := (100 + sum_values (penalties (compute_safety route mode)))%Z in
  score (compute_safety route mode) == inject_Z (Z.max 10 raw) / 10
  /\ 1 <= score (compute_safety route mode) <= 10.
Proof.
  cbv zeta. split; [apply score_eq |].
  rewrite score_eq.
  set (raw := raw_score (penalties (compute_safety route mode))).
  assert (Hraw : (35 <= raw <= 100)%Z) by apply raw_score_bounds.
  unfold Py.max.
  assert (Hc : (10 <= Z.max 10 raw <= 100)%Z) by lia.
  destruct Hc as [Hlo Hhi].
  split.
  - apply Qle_shift_div_l; [reflexivity |].
    change (1 * 10) with (inject_Z 10). now rewrite <- Zle_Qle.
  - apply Qle_shift_div_r; [reflexivity |].
    change (10 * 10) with (inject_Z 100). now rewrite <- Zle_Qle.
Qed.

(** C9: the raw score [100 + sum(penalties)] is never below 35, so the
    floor [max(10, raw)] never changes it and every score is at least 3.5. *)
Theorem raw_score_at_least_35 (route : Route) (mode : SafetyMode) :
  let raw := raw_score (penalties (compute_safety route mode)) in
  (35 <= raw)%Z /\ Py.max 10 raw = raw
  /\ 3.5 <= score (compute_safety route mode).
Proof.
  cbv zeta. rewrite score_eq.
  set (raw := raw_score (penalties (compute_safety route mode))).
  assert (Hraw : (35 <= raw <= 100)%Z) by apply raw_score_bounds.
  assert (Hmax : Py.max 10 raw = raw) by (unfold Py.max; lia).
  rewrite Hmax. repeat split; [lia |].
  apply Qle_shift_div_l; [reflexivity |].
  unfold Qle. cbn. lia.
Qed.

(** C6: for every route, the night-mode isolation penalty is at least as
    large in magnitude as the day-mode one, and so is the night-mode
    road_type penalty whenever the day-mode road_type penalty is negative. *)
Theorem night_penalties_dominate (route : Route) :
  let p_day := penalties (compute_safety route day) in
  let p_night := penalties (compute_safety route night) in
  (Z.abs (isolation p_day) <= Z.abs (isolation p_night))%Z
  /\ ((road_type p_day < 0)%Z ->
      (Z.abs (road_type p_day) <= Z.abs (road_type p_night))%Z).
Proof.
  cbv zeta. unfold compute_safety. cbn [penalties].
  generalize (_compute_highway_ratio (_extract_steps route) (get (r_distance route) 0)).
  generalize (_compute_turn_density (_extract_steps route) (get (r_distance route) 0 / 1000)).
  generalize (_compute_isolation (_extract_steps route)).
  generalize (_classify_traffic (get (r_duration route) 0) (get (r_distance route) 0)).
  generalize (get (r_duration route) 0 / 3600).
  intros dur tl iso td hr.
  unfold compute_penalties, is_night. cbn [isolation road_type andb].
  split.
  - destruct (Py.Qgtb iso 50); [vm_compute; congruence |].
    destruct (Py.Qgtb iso 20); vm_compute; congruence.
  - destruct (Py.Qgtb hr 0.7); [cbn; lia |].
    destruct (Py.Qgeb hr 0.4); intros _; vm_compute; congruence.
Qed.

End SafetyScore.

Module Scenario.

Import safety_engine Metrics Samples PyFacts SafetyFacts.

Lemma long_highway_route_is_scenario : is_scenario_route long_highway_route.
Proof. unfold is_scenario_route. cbv zeta. repeat split; vm_compute; reflexivity. Qed.

(** C5, as written, fails: the route of the scenario has raw score 90 and
    score 9.0, not 95 and 9.5, because eight hours exceed the six-hour
    threshold of the duration rule. *)
Lemma scenario_score_is_not_9_5 :
  is_scenario_route long_highway_route
  /\ ~ (raw_score (penalties (compute_safety long_highway_route day)) = 95%Z
        /\ score (compute_safety long_highway_route day) == 9.5).
Proof.
  split; [apply long_highway_route_is_scenario |].
  intros [Hraw _]. vm_compute in Hraw. discriminate.
Qed.

(** C5, amended: every route of the scenario, scored in day mode, has
    traffic Moderate and penalties road_type 0, turn_density 0,
    isolation 0, duration -5, traffic -5, hence raw score 90 and
    safety_score 9.0. *)
Theorem scenario_score (route : Route) :
  is_scenario_route route ->
  let res := compute_safety route day in
  traffic_level res = "Moderate"%string
  /\ penalties res = mkPenalties 0 0 0 (-5) (-5)
  /\ raw_score (penalties res) = 90%Z
  /\ score res == 9.
Proof.
  intros (Hdist & Hdur & Hhr & Hturns & Hiso). cbv zeta.
  set (dist := get (r_distance route) 0) in *.
  set (dur := get (r_duration route) 0) in *.
  assert (Htl : traffic_level (compute_safety route day) = "Moderate"%string).
  { unfold compute_safety. cbn [traffic_level]. fold dist dur.
    unfold _classify_traffic.
    assert (H1 : Py.Qleb dist 0 = false) by now rewrite Hdist.
    assert (H2 : Py.Qleb dur 0 = false) by now rewrite Hdur.
    assert (H3 : Py.Qgeb (dist / 1000 / (dur / 3600)) 70 = false)
      by now rewrite Hdist, Hdur.
    assert (H4 : Py.Qgeb (dist / 1000 / (dur / 3600)) 45 = true)
      by now rewrite Hdist, Hdur.
    now rewrite H1, H2, H3, H4. }
  assert (Hp : penalties (compute_safety route day) = mkPenalties 0 0 0 (-5) (-5)).
  { unfold compute_safety in *. cbn [penalties traffic_level] in *.
    fold dist dur in Htl |- *. rewrite Htl.
    unfold compute_penalties. cbn [is_night andb].
    assert (H1 : Py.Qgtb (_compute_highway_ratio (_extract_steps route) dist) 0.7 = true)
      by now rewrite Hhr.
    assert (H2 : Py.Qltb (_compute_turn_density (_extract_steps route) (dist / 1000)) 1
                 = true).
    { unfold _compute_turn_density. rewrite Hturns.
      assert (H : Py.Qleb (dist / 1000) 0 = false) by now rewrite Hdist.
      rewrite H. now rewrite Hdist. }
    assert (H3 : Py.Qgtb (_compute_isolation (_extract_steps route)) 50 = false)
      by now rewrite Hiso.
    assert (H4 : Py.Qgtb (_compute_isolation (_extract_steps route)) 20 = false)
      by now rewrite Hiso.
    assert (H5 : Py.Qgtb (dur / 3600) 8 = false) by now rewrite Hdur.
    assert (H6 : Py.Qgtb (dur / 3600) 6 = true) by now rewrite Hdur.
    now rewrite H1, H2, H3, H4, H5, H6. }
  repeat split; [exact Htl | exact Hp | now rewrite Hp |].
  rewrite score_eq, Hp. reflexivity.
Qed.

Lemma scenario_score_witness :
  is_scenario_route long_highway_route
  /\ score (compute_safety long_highway_route day) == 9.
Proof.
  split; [apply long_highway_route_is_scenario |].
  apply (scenario_score long_highway_route long_highway_route_is_scenario).
Defined.

(** The bound 35 of C9 is reached, at night, by [worst_route]. *)
Example worst_route_raw_score :
  penalties (compute_safety worst_route night) = mkPenalties (-13) (-10) (-22) (-10) (-10)
  /\ raw_score (penalties (compute_safety worst_route night)) = 35%Z.
Proof. split; vm_compute; reflexivity. Qed.

Lemma night_penalties_dominate_witness :
  (road_type (penalties (compute_safety village_route day)) < 0)%Z
  /\ (Z.abs (road_type (penalties (compute_safety village_route day)))
      <= Z.abs (road_type (penalties (compute_safety village_route night))))%Z.
Proof.
  assert (H : (road_type (penalties (compute_safety village_route day)) < 0)%Z)
    by (vm_compute; reflexivity).
  split; [exact H |].
  exact (proj2 (SafetyScore.night_penalties_dominate village_route) H).
Defined.

End Scenario.

(** ** Feature extraction: isolation and road quality *)

Module FeatureFacts.

Import safety_engine route_service Metrics Samples PyFacts.

Lemma total_step_distance_cons (s : Step) (steps : list Step) :
  total_step_distance (s :: steps) = step_distance s + total_step_distance steps.
Proof. reflexivity. Qed.

(** Over a run of unnamed steps the loop adds up the distances and leaves
    the running maximum alone. *)
Lemma isolation_run (steps : list Step) (c l : Q) :
  all_isolated steps ->
  exists c', fold_left isolation_step steps (c, l) = (c', l)
             /\ c' == c + total_step_distance steps.
Proof.
  intros Hall. revert c. induction Hall as [| s steps Hs _ IH]; intros c.
  - exists c. split; [reflexivity | cbn; ring].
  - cbn [fold_left]. unfold isolation_step at 2. rewrite Hs.
    destruct (IH (c + get (s_distance s) 0)) as (c' & Hfold & Hc').
    exists c'. split; [exact Hfold |].
    rewrite Hc', total_step_distance_cons. unfold step_distance. ring.
Qed.

Lemma isolation_all_unnamed_steps (steps : list Step) :
  all_isolated steps -> 0 <= total_step_distance steps ->
  _compute_isolation steps == total_step_distance steps / 1000.
Proof.
  intros Hall Hnonneg. unfold _compute_isolation.
  destruct (isolation_run steps 0 0 Hall) as (c' & -> & Hc').
  rewrite Qplus_0_l in Hc'.
  destruct (Py.Qgtb c' 0) eqn:Hgt.
  - now rewrite Hc'.
  - apply Qgtb_false in Hgt. rewrite Hc' in Hgt.
    assert (H0 : total_step_distance steps == 0) by now apply Qle_antisym.
    now rewrite H0.
Qed.

Lemma Qdiv_1000_le (x y : Q) : x <= y -> x / 1000 <= y / 1000.
Proof. intros H. unfold Qdiv. now apply Qmult_le_compat_r. Qed.

(** The run of unnamed steps that ends the route counts. *)
Lemma isolation_trailing_run (pre run : list Step) (named : Step) :
  is_isolated named = false -> all_isolated run ->
  total_step_distance run / 1000 <= _compute_isolation (pre ++ named :: run).
Proof.
  intros Hnamed Hrun. unfold _compute_isolation.
  rewrite fold_left_app. cbn [fold_left].
  destruct (fold_left isolation_step pre (0, 0)) as [c0 l0].
  unfold isolation_step at 2. rewrite Hnamed.
  set (l1 := if Py.Qgtb c0 l0 then c0 else l0).
  destruct (isolation_run run 0 l1 Hrun) as (c' & -> & Hc').
  rewrite Qplus_0_l in Hc'.
  destruct (Py.Qgtb c' l1) eqn:Hgt.
  - rewrite Hc'. apply Qle_refl.
  - apply Qgtb_false in Hgt. apply Qdiv_1000_le. now rewrite <- Hc'.
Qed.

(** C8, as written, fails: the single unnamed step of [short_steps_route]
    is 400 m long while the route's distance is 1 km, and the isolation
    figure is 0.4 km, not 1 km. *)
Lemma isolation_is_not_route_distance :
  all_isolated (_extract_steps short_steps_route)
  /\ _compute_isolation (_extract_steps short_steps_route) == 0.4
  /\ get (r_distance short_steps_route) 0 / 1000 == 1
  /\ ~ longest_isolated_segment_km (compute_safety short_steps_route day)
       == distance_km (compute_safety short_steps_route day).
Proof.
  repeat split.
  - repeat constructor.
  - intros H. vm_compute in H. discriminate.
Qed.

(** C8, amended: when every step of a route is unnamed (and the step
    distances do not sum to a negative number) the longest isolated
    segment is the sum of the step distances in kilometres; it is the
    route's total distance in kilometres when the route's distance is
    that sum.  The run of unnamed steps after the last named step is
    part of the maximum. *)
Theorem isolation_all_unnamed (route : Route) (mode : SafetyMode) :
  all_isolated (_extract_steps route) ->
  0 <= total_step_distance (_extract_steps route) ->
  _compute_isolation (_extract_steps route)
    == total_step_distance (_extract_steps route) / 1000
  /\ (get (r_distance route) 0 == total_step_distance (_extract_steps route) ->
      longest_isolated_segment_km (compute_safety route mode)
        == distance_km (compute_safety route mode))
  /\ (forall pre named run,
        is_isolated named = false -> all_isolated run ->
        total_step_distance run / 1000
          <= _compute_isolation (pre ++ named :: run)).
Proof.
  intros Hall Hnonneg.
  pose proof (isolation_all_unnamed_steps _ Hall Hnonneg) as Hiso.
  split; [exact Hiso | split].
  - intros Hdist. unfold compute_safety.
    cbn [longest_isolated_segment_km distance_km].
    apply (round_comp 1). now rewrite Hiso, Hdist.
  - intros pre named run. apply isolation_trailing_run.
Qed.

Lemma isolation_all_unnamed_witness :
  _compute_isolation (_extract_steps unnamed_route) == 3
  /\ longest_isolated_segment_km (compute_safety unnamed_route night)
     == distance_km (compute_safety unnamed_route night).
Proof.
  assert (Hall : all_isolated (_extract_steps unnamed_route))
    by (repeat constructor).
  assert (Hnonneg : 0 <= total_step_distance (_extract_steps unnamed_route))
    by (vm_compute; discriminate).
  destruct (isolation_all_unnamed unnamed_route night Hall Hnonneg)
    as (Hiso & Hdist & _).
  split.
  - rewrite Hiso. reflexivity.
  - apply Hdist. reflexivity.
Defined.

End FeatureFacts.

Module RoadQuality.

Import safety_engine route_service Metrics Samples PyFacts FeatureFacts.

#[local] Instance quality_of_ratio_proper : Proper (Qeq ==> eq) quality_of_ratio.
Proof.
  intros x y Hxy. unfold quality_of_ratio.
  assert (H6 : Py.Qgeb x 0.6 = Py.Qgeb y 0.6) by now rewrite Hxy.
  assert (H3 : Py.Qgeb x 0.3 = Py.Qgeb y 0.3) by now rewrite Hxy.
  now rewrite H6, H3.
Qed.

Lemma highway_distance_cons (alts : list string) (s : Step) (steps : list Step) :
  highway_distance alts (s :: steps)
  = if on_highway alts s
    then step_distance s + highway_distance alts steps
    else highway_distance alts steps.
Proof.
  unfold highway_distance. cbn [List.filter]. now destruct (on_highway alts s).
Qed.

(** The loop of [classify_road_quality] accumulates the highway distance
    and the total distance of the steps. *)
Lemma quality_loop (steps : list Step) (h t : Q) :
  (fold_left quality_step steps (h, t)).1
    == h + highway_distance route_service.HIGHWAY_PATTERN steps
  /\ (fold_left quality_step steps (h, t)).2 == t + total_step_distance steps.
Proof.
  revert h t. induction steps as [| s steps IH]; intros h t.
  - cbn. split; ring.
  - cbn [fold_left]. rewrite highway_distance_cons, total_step_distance_cons.
    unfold quality_step at 2 4. fold (on_highway route_service.HIGHWAY_PATTERN s).
    fold (step_distance s).
    destruct (on_highway route_service.HIGHWAY_PATTERN s);
      destruct (IH (h + step_distance s) (t + step_distance s)) as [IH1 IH2];
      destruct (IH h (t + step_distance s)) as [IH3 IH4];
      split; first [rewrite IH1 | rewrite IH2 | rewrite IH3 | rewrite IH4]; ring.
Qed.

(** The loop of [_compute_highway_ratio] accumulates the distance of the
    steps that the scorer's own pattern matches. *)
Lemma highway_loop (steps : list Step) (h : Q) :
  fold_left
    (fun highway_dist step =>
       if Py.search safety_engine.HIGHWAY_PATTERN
            (name_ref (get (s_name step) ""%string) (get (s_ref step) ""%string))
       then highway_dist + get (s_distance step) 0
       else highway_dist) steps h
  == h + highway_distance safety_engine.HIGHWAY_PATTERN steps.
Proof.
  revert h. induction steps as [| s steps IH]; intros h.
  - cbn. ring.
  - cbn [fold_left]. rewrite highway_distance_cons, IH.
    fold (on_highway safety_engine.HIGHWAY_PATTERN s). fold (step_distance s).
    destruct (on_highway safety_engine.HIGHWAY_PATTERN s); ring.
Qed.

Lemma compute_highway_ratio_eq (steps : list Step) (d : Q) :
  0 < d ->
  _compute_highway_ratio steps d
  == highway_distance safety_engine.HIGHWAY_PATTERN steps / d.
Proof.
  intros Hd. unfold _compute_highway_ratio.
  assert (Hle : Py.Qleb d 0 = false).
  { apply not_true_iff_false. rewrite Qleb_le. now apply Qlt_not_le. }
  rewrite Hle, highway_loop. now rewrite Qplus_0_l.
Qed.

Lemma classify_road_quality_eq (route : Route) :
  let steps := _extract_steps route in
  classify_road_quality route
  = if Py.Qleb (total_step_distance steps) 0 then "Average"%string
    else quality_of_ratio
           (highway_distance route_service.HIGHWAY_PATTERN steps
            / total_step_distance steps).
Proof.
  cbv zeta. unfold classify_road_quality. fold (_extract_steps route).
  destruct (quality_loop (_extract_steps route) 0 0) as [Hh Ht].
  destruct (fold_left quality_step (_extract_steps route) (0, 0)) as [h t].
  cbn [fst snd] in Hh, Ht. rewrite Qplus_0_l in Hh, Ht.
  rewrite <- Ht.
  destruct (Py.Qleb t 0); [reflexivity |].
  fold (quality_of_ratio (h / t)). apply quality_of_ratio_proper.
  now rewrite Hh, Ht.
Qed.

(** A longer list of alternatives matches wherever a shorter one does. *)
Lemma search_from_more (alts extra : list string) (prev : option ascii) (s : string) :
  Py.search_from alts prev s = true ->
  Py.search_from (alts ++ extra) prev s = true.
Proof.
  revert prev. induction s as [| c s IH]; intros prev; cbn [Py.search_from];
    unfold Py.match_here; rewrite existsb_app;
    intros [H | H]%orb_true_iff; apply orb_true_iff.
  - left. apply andb_true_iff in H as [-> ->]. reflexivity.
  - discriminate.
  - left. apply andb_true_iff in H as [-> ->]. reflexivity.
  - right. now apply IH.
Qed.

(** Every step the classifier's pattern matches, the scorer's matches too. *)
Lemma service_pattern_included (s : Step) :
  on_highway route_service.HIGHWAY_PATTERN s = true ->
  on_highway safety_engine.HIGHWAY_PATTERN s = true.
Proof.
  unfold on_highway, Py.search.
  change safety_engine.HIGHWAY_PATTERN
    with (route_service.HIGHWAY_PATTERN ++ ["motorway"; "trunk"]%string).
  apply search_from_more.
Qed.

(** C4, as written, fails: for one kilometre of Grand Trunk Road the
    breakdown reports highway ratio 1.0, which the thresholds would make
    "Excellent", while [road_quality] is "Average". *)
Lemma road_quality_is_not_from_breakdown_ratio :
  exists info,
    process_route day (0%nat, trunk_route) ∅ = (inr info, ∅)
    /\ b_highway_ratio (breakdown info) == 1
    /\ quality_of_ratio (b_highway_ratio (breakdown info)) = "Excellent"%string
    /\ road_quality info = "Average"%string.
Proof. eexists. repeat split. Qed.

(** C4, amended: [road_quality] is decided by the classifier's own ratio,
    the distance of the steps its highway pattern matches over the sum of
    all step distances: "Average" when that sum is not positive, otherwise
    "Excellent" from 0.6, "Good" from 0.3 and "Average" below.  That ratio
    is the scorer's unrounded highway ratio when the route's distance is
    the positive sum of its step distances and both patterns match the
    same steps. *)
Theorem road_quality_by_step_ratio (route : Route) :
  let steps := _extract_steps route in
  let total := total_step_distance steps in
  let ratio := highway_distance route_service.HIGHWAY_PATTERN steps / total in
  classify_road_quality route
  = (if Py.Qleb total 0 then "Average"%string else quality_of_ratio ratio)
  /\ (0 < total ->
      get (r_distance route) 0 == total ->
      (forall s, In s steps ->
                 on_highway safety_engine.HIGHWAY_PATTERN s
                 = on_highway route_service.HIGHWAY_PATTERN s) ->
      _compute_highway_ratio steps (get (r_distance route) 0) == ratio
      /\ classify_road_quality route
         = quality_of_ratio
             (_compute_highway_ratio steps (get (r_distance route) 0))).
Proof.
  cbv zeta. split; [apply classify_road_quality_eq |].
  intros Hpos Hdist Hsame.
  assert (Hfilter : List.filter (on_highway safety_engine.HIGHWAY_PATTERN)
                                (_extract_steps route)
                    = List.filter (on_highway route_service.HIGHWAY_PATTERN)
                                  (_extract_steps route)).
  { apply List.filter_ext_in. exact Hsame. }
  assert (Hratio : _compute_highway_ratio (_extract_steps route)
                                          (get (r_distance route) 0)
                   == highway_distance route_service.HIGHWAY_PATTERN
                        (_extract_steps route)
                      / total_step_distance (_extract_steps route)).
  { rewrite compute_highway_ratio_eq by now rewrite Hdist.
    unfold highway_distance. now rewrite Hfilter, Hdist. }
  split; [exact Hratio |].
  rewrite classify_road_quality_eq. cbv zeta.
  assert (Hle : Py.Qleb (total_step_distance (_extract_steps route)) 0 = false).
  { apply not_true_iff_false. rewrite Qleb_le. now apply Qlt_not_le. }
  now rewrite Hle, Hratio.
Qed.

Lemma road_quality_by_step_ratio_witness :
  classify_road_quality long_highway_route = "Excellent"%string
  /\ _compute_highway_ratio (_extract_steps long_highway_route)
                            (get (r_distance long_highway_route) 0) == 0.8.
Proof.
  destruct (road_quality_by_step_ratio long_highway_route) as [_ H].
  destruct H as [Hratio Hq].
  - vm_compute. reflexivity.
  - reflexivity.
  - intros s Hs. cbn in Hs.
    repeat (destruct Hs as [<- | Hs]; [vm_compute; reflexivity |]).
    destruct Hs.
  - split.
    + rewrite Hq, Hratio. vm_compute. reflexivity.
    + rewrite Hratio. reflexivity.
Defined.

End RoadQuality.

(** ** Ranking *)

Module Ranking.

Import safety_engine route_service Metrics PyFacts.

Section StableSort.

Context {A : Type} (key : A -> Q).

Lemma insert_desc_perm (x : A) (l : list A) :
  Permutation (Py.insert_desc key x l) (x :: l).
Proof.
  induction l as [| y l IH]; cbn; [reflexivity |].
  destruct (Py.Qgtb (key y) (key x)); [| reflexivity].
  rewrite IH. apply perm_swap.
Qed.

Lemma sort_reverse_perm (l : list A) : Permutation (Py.sort_reverse key l) l.
Proof.
  induction l as [| x l IH]; cbn; [reflexivity |].
  fold (Py.sort_reverse key l). rewrite insert_desc_perm. now constructor.
Qed.

Lemma insert_desc_descending (x : A) (l : list A) :
  descending key l -> descending key (Py.insert_desc key x l).
Proof.
  unfold descending. induction 1 as [| y l Hl IH Hy]; cbn.
  - repeat constructor.
  - destruct (Py.Qgtb (key y) (key x)) eqn:Hgt.
    + constructor; [exact IH |].
      rewrite insert_desc_perm. constructor; [| exact Hy].
      apply Qgtb_gt in Hgt. now apply Qlt_le_weak.
    + apply Qgtb_false in Hgt.
      constructor; [now constructor |].
      constructor; [exact Hgt |].
      eapply Forall_impl; [exact Hy |].
      intros z Hz. cbn in Hz. now apply Qle_trans with (key y).
Qed.

Lemma sort_reverse_descending (l : list A) : descending key (Py.sort_reverse key l).
Proof.
  induction l as [| x l IH]; cbn; [constructor |].
  now apply insert_desc_descending.
Qed.

(** Inserting [x] puts it in front of the elements that share its key. *)
Lemma with_key_insert_desc (s : Q) (x : A) (l : list A) :
  with_key key s (Py.insert_desc key x l) = with_key key s (x :: l).
Proof.
  induction l as [| y l IH]; [reflexivity |].
  cbn [Py.insert_desc]. destruct (Py.Qgtb (key y) (key x)) eqn:Hgt;
    [| reflexivity].
  unfold with_key in *. cbn [List.filter] in *. rewrite IH.
  destruct (Qeq_bool (key x) s) eqn:Hx; [| reflexivity].
  destruct (Qeq_bool (key y) s) eqn:Hy; [| reflexivity].
  apply Qeq_bool_iff in Hx, Hy. apply Qgtb_gt in Hgt.
  rewrite Hx, Hy in Hgt. now apply Qlt_irrefl in Hgt.
Qed.

Lemma sort_reverse_stable (s : Q) (l : list A) :
  with_key key s (Py.sort_reverse key l) = with_key key s l.
Proof.
  induction l as [| x l IH]; [reflexivity |].
  cbn [Py.sort_reverse foldr]. fold (Py.sort_reverse key l).
  rewrite with_key_insert_desc. unfold with_key in *. cbn [List.filter].
  now rewrite IH.
Qed.

End StableSort.

(** C7: the ranking step returns the candidates in non-increasing order of
    [safety_score]; it returns the same candidates, and those with equal
    score keep the order they had in the input. *)
Theorem rank_sorted_stable (processed : list RouteInfo) :
  descending safety_score (rank processed)
  /\ Permutation (rank processed) processed
  /\ forall s, with_key safety_score s (rank processed)
               = with_key safety_score s processed.
Proof.
  unfold rank. split; [apply sort_reverse_descending |].
  split; [apply sort_reverse_perm |].
  intros s. apply sort_reverse_stable.
Qed.

End Ranking.

(** ** The pipeline and the HTTP boundary *)

Module Pipeline.

Import safety_engine route_service route Failures Samples.

Section Services.

Variable nominatim : string -> GeoReply.
Variable osrm : Coords -> Coords -> OsrmReply.

(** A cache hit returns the cached coordinates without a call. *)
Lemma geocode_cached (place : string) (cache : Cache) (coords : Coords) :
  cache !! cache_key place = Some coords ->
  geocode nominatim place cache = (inr coords, cache).
Proof. unfold geocode, cache_key. now intros ->. Qed.

(** A cache miss followed by a failing geocoder call raises, and leaves
    the cache alone. *)
Lemma geocode_failure (place : string) (cache : Cache) (f : GeoFailure) :
  cache !! cache_key place = None ->
  geo_failure (nominatim (place ++ ", India")) = Some f ->
  exists e, geocode nominatim place cache = (inl e, cache)
            /\ match f with
               | GeoEmptyResult => is_ValueError e = true
               | GeoTransport | GeoHttpStatus =>
                   is_ValueError e = false /\ is_RuntimeError e = false
               end.
Proof.
  unfold geocode, geo_failure, cache_key. intros -> Hf.
  destruct (nominatim (place ++ ", India")) as [msg | status reason data].
  - injection Hf as <-. eauto.
  - destruct (is_success status); cbn [negb].
    + destruct data; [injection Hf as <- | discriminate]. eauto.
    + injection Hf as <-. eauto.
Qed.

Lemma fetch_failure (from to : Coords) (cache : Cache) (f : RoutingFailure) :
  routing_failure (osrm from to) = Some f ->
  match f with
  | RoutingZeroCandidates =>
      fetch_osrm_routes osrm from.1 from.2 to.1 to.2 cache = (inr [], cache)
  | RoutingCodeNotOk =>
      exists e, fetch_osrm_routes osrm from.1 from.2 to.1 to.2 cache = (inl e, cache)
                /\ is_ValueError e = false /\ is_RuntimeError e = true
  | RoutingTransport | RoutingHttpStatus =>
      exists e, fetch_osrm_routes osrm from.1 from.2 to.1 to.2 cache = (inl e, cache)
                /\ is_ValueError e = false /\ is_RuntimeError e = false
  end.
Proof.
  unfold fetch_osrm_routes, routing_failure. destruct from, to. cbn [fst snd].
  destruct (osrm _ _) as [msg | status reason data].
  - intros [= <-]. eauto.
  - destruct (is_success status); cbn [negb].
    + destruct (bool_decide (o_code data = Some "Ok"%string)); cbn [negb].
      * destruct (get (o_routes data) []) eqn:Hroutes; [| discriminate].
        intros [= <-]. reflexivity.
      * intros [= <-]. eauto.
    + intros [= <-]. eauto.
Qed.

(** What [route_endpoint] answers when [get_routes] raises. *)
Lemma route_endpoint_raises (request : RouteRequest) (mode : SafetyMode)
    (cache cache' : Cache) (e : Exn) :
  valid_request request mode ->
  get_routes nominatim osrm (Py.strip (origin request))
             (Py.strip (destination request)) mode cache = (inl e, cache') ->
  route_endpoint nominatim osrm request cache = (except_clauses e, cache').
Proof.
  intros (Ho & Hd & Hm) Hget. unfold route_endpoint.
  now rewrite Ho, Hd, Hm, Hget.
Qed.

(** C2, amended: when the resolution of the origin, or of the
    destination after the origin, misses the cache and the geocoding
    call fails, the request is answered with status 422 if the geocoder
    returned an empty result; a transport failure or a non-success HTTP
    status of the geocoder reaches the catch-all clause and is answered
    with status 500.  The cache is left as it was. *)
Theorem place_resolution_failure_status
    (request : RouteRequest) (mode : SafetyMode)
    (cache c : Cache) (place : string) (f : GeoFailure) :
  valid_request request mode ->
  (place = Py.strip (origin request) /\ c = cache
   \/ place = Py.strip (destination request)
      /\ exists from,
           geocode nominatim (Py.strip (origin request)) cache = (inr from, c)) ->
  c !! cache_key place = None ->
  geo_failure (nominatim (place ++ ", India")) = Some f ->
  exists detail,
    route_endpoint nominatim osrm request cache
    = (HTTPException (geo_failure_status f) detail, c).
Proof.
  intros Hvalid Hplace Hmiss Hf.
  destruct (geocode_failure place c f Hmiss Hf) as (e & Hgeo & He).
  assert (Hget : get_routes nominatim osrm (Py.strip (origin request))
                   (Py.strip (destination request)) mode cache = (inl e, c)).
  { unfold get_routes, bind.
    destruct Hplace as [[-> ->] | [-> [from Hfrom]]].
    - now rewrite Hgeo.
    - now rewrite Hfrom, Hgeo. }
  rewrite (route_endpoint_raises _ _ _ _ _ Hvalid Hget).
  unfold except_clauses, geo_failure_status.
  destruct f; [destruct He as [-> ->] | destruct He as [-> ->] | rewrite He];
    eauto.
Qed.

(** C3, amended: once both places are resolved, a reply of the routing
    service whose body carries a code other than "Ok", or that holds no
    route, makes the request fail with status 502; a transport failure
    or a non-success HTTP status of the routing service reaches the
    catch-all clause and is answered with status 500. *)
Theorem routing_failure_http_status
    (request : RouteRequest) (mode : SafetyMode)
    (cache c1 c2 : Cache) (from to : Coords) (f : RoutingFailure) :
  valid_request request mode ->
  geocode nominatim (Py.strip (origin request)) cache = (inr from, c1) ->
  geocode nominatim (Py.strip (destination request)) c1 = (inr to, c2) ->
  routing_failure (osrm from to) = Some f ->
  exists detail,
    route_endpoint nominatim osrm request cache
    = (HTTPException (routing_failure_status f) detail, c2).
Proof.
  intros Hvalid Hfrom Hto Hf.
  pose proof (fetch_failure from to c2 f Hf) as Hfetch.
  assert (Hget : exists e,
             get_routes nominatim osrm (Py.strip (origin request))
               (Py.strip (destination request)) mode cache = (inl e, c2)
             /\ is_ValueError e = false
             /\ is_RuntimeError e
                = match f with
                  | RoutingCodeNotOk | RoutingZeroCandidates => true
                  | _ => false
                  end).
  { unfold get_routes, bind. rewrite Hfrom, Hto.
    destruct f.
    - destruct Hfetch as (e & -> & H1 & H2). eauto.
    - destruct Hfetch as (e & -> & H1 & H2). eauto.
    - destruct Hfetch as (e & -> & H1 & H2). eauto.
    - rewrite Hfetch. eexists. split; [reflexivity | split; reflexivity]. }
  destruct Hget as (e & Hget & Hv & Hr).
  rewrite (route_endpoint_raises _ _ _ _ _ Hvalid Hget).
  unfold except_clauses, routing_failure_status. rewrite Hv, Hr.
  destruct f; eauto.
Qed.

End Services.

(** C2, as written, fails: with the geocoder unreachable, or answering
    503, a request for a place that is not cached is answered with status
    500, not 422. *)
Lemma geocode_transport_failure_is_500 :
  _geocode_cache !! cache_key "Atlantis" = None
  /\ (route_endpoint nominatim_down osrm_four atlantis_jaipur _geocode_cache).1
     = HTTPException 500 "Unexpected error: All connection attempts failed"
  /\ (route_endpoint nominatim_503 osrm_four atlantis_jaipur _geocode_cache).1
     = HTTPException 500 "Unexpected error: Server error '503 Service Unavailable'".
Proof. repeat split; vm_compute; reflexivity. Qed.

Lemma atlantis_jaipur_valid : valid_request atlantis_jaipur day.
Proof. repeat split. Qed.

Lemma delhi_jaipur_valid : valid_request delhi_jaipur day.
Proof. repeat split. Qed.

Lemma place_resolution_failure_status_witness :
  exists detail,
    route_endpoint nominatim_empty osrm_four atlantis_jaipur _geocode_cache
    = (HTTPException 422 detail, _geocode_cache).
Proof.
  apply (place_resolution_failure_status nominatim_empty osrm_four
           atlantis_jaipur day _geocode_cache _geocode_cache "Atlantis"
           GeoEmptyResult).
  - exact atlantis_jaipur_valid.
  - left. split; reflexivity.
  - vm_compute. reflexivity.
  - reflexivity.
Defined.

(** C3, as written, fails: with the routing service unreachable, or
    answering 500, the request is answered with status 500, not 502. *)
Lemma routing_transport_failure_is_500 :
  (route_endpoint nominatim_down osrm_down delhi_jaipur _geocode_cache).1
  = HTTPException 500 "Unexpected error: All connection attempts failed"
  /\ (route_endpoint nominatim_down osrm_500 delhi_jaipur _geocode_cache).1
     = HTTPException 500 "Unexpected error: Server error '500 Internal Server Error'".
Proof. split; vm_compute; reflexivity. Qed.

Lemma delhi_is_seeded :
  _geocode_cache !! cache_key (Py.strip (origin delhi_jaipur))
  = Some (28.6139, 77.2090).
Proof. vm_compute. reflexivity. Qed.

Lemma jaipur_is_seeded :
  _geocode_cache !! cache_key (Py.strip (destination delhi_jaipur))
  = Some (26.9124, 75.7873).
Proof. vm_compute. reflexivity. Qed.

Lemma routing_failure_http_status_witness :
  exists detail,
    route_endpoint nominatim_down osrm_no_route delhi_jaipur _geocode_cache
    = (HTTPException 502 detail, _geocode_cache).
Proof.
  apply (routing_failure_http_status nominatim_down osrm_no_route
           delhi_jaipur day _geocode_cache _geocode_cache _geocode_cache
           (28.6139, 77.2090) (26.9124, 75.7873) RoutingCodeNotOk).
  - exact delhi_jaipur_valid.
  - exact (geocode_cached nominatim_down _ _ _ delhi_is_seeded).
  - exact (geocode_cached nominatim_down _ _ _ jaipur_is_seeded).
  - reflexivity.
Defined.

End Pipeline.

(** ** Route identifiers *)

Module Identifiers.

Import safety_engine route_service route Metrics Failures Samples.

Lemma process_route_inv (mode : SafetyMode) (i : nat) (route : Route)
    (c c' : Cache) (info : RouteInfo) :
  process_route mode (i, route) c = (inr info, c') ->
  c' = c
  /\ id info = ("route_" ++ Py.str_of_nat (i + 1))%string
  /\ safety_score info = score (compute_safety route mode).
Proof.
  unfold process_route. destruct (r_duration route); [| discriminate].
  intros [= <- <-]. repeat split.
Qed.

(** The scoring loop yields one record per candidate, in order, and does
    not touch the cache. *)
Lemma for_each_process_route (mode : SafetyMode) (irs : list (nat * Route))
    (c c' : Cache) (processed : list RouteInfo) :
  for_each (process_route mode) irs c = (inr processed, c') ->
  c' = c
  /\ Forall2 (fun ir info => process_route mode ir c = (inr info, c))
             irs processed.
Proof.
  revert processed. induction irs as [| [i route] irs IH]; intros processed.
  - intros [= <- <-]. split; constructor.
  - cbn [for_each]. unfold bind at 1.
    destruct (process_route mode (i, route) c) as [[e | info] c1] eqn:Hone;
      [discriminate |].
    apply process_route_inv in Hone as Hc1. destruct Hc1 as [-> _].
    unfold bind at 1.
    destruct (for_each (process_route mode) irs c) as [[e | infos] c2] eqn:Hrest;
      [discriminate |].
    intros [= <- <-]. destruct (IH infos eq_refl) as [-> Hall].
    split; [reflexivity | now constructor].
Qed.

Lemma assign_names_made_from_gen (label : nat -> string) (l : list RouteInfo) :
  Forall2 (fun p info => made_from info p) l
          (imap (fun i r => set_name r (label i)) l).
Proof.
  revert label. induction l as [| r l IH]; intros label; cbn; constructor.
  - reflexivity.
  - apply (IH (label ∘ S)).
Qed.

(** Naming changes nothing but the name. *)
Lemma assign_names_made_from (l : list RouteInfo) :
  Forall2 (fun p info => made_from info p) l (assign_names l).
Proof. apply assign_names_made_from_gen. Qed.

Lemma made_from_id (info p : RouteInfo) : made_from info p -> id info = id p.
Proof. unfold made_from. now intros ->. Qed.

Lemma assign_names_ids (l : list RouteInfo) :
  map id (assign_names l) = map id l.
Proof.
  pose proof (assign_names_made_from l) as H.
  induction H as [| p info l l' Hm _ IH]; [reflexivity |].
  cbn. now rewrite IH, (made_from_id _ _ Hm).
Qed.

Lemma processed_ids (mode : SafetyMode) (c : Cache)
    (irs : list (nat * Route)) (processed : list RouteInfo) :
  Forall2 (fun ir info => process_route mode ir c = (inr info, c)) irs processed ->
  map id processed
  = map (fun ir => ("route_" ++ Py.str_of_nat (ir.1 + 1))%string) irs.
Proof.
  induction 1 as [| [i route] info irs processed Hone _ IH]; [reflexivity |].
  cbn. apply process_route_inv in Hone as (_ & -> & _). now rewrite IH.
Qed.

Lemma enumerate_ids (raw_routes : list Route) :
  map (fun ir : nat * Route => ("route_" ++ Py.str_of_nat (ir.1 + 1))%string)
      (Py.enumerate (take 3 raw_routes))
  = take (Nat.min (length raw_routes) 3) route_ids.
Proof.
  destruct raw_routes as [| a [| b [| c rest]]]; try reflexivity.
  replace (Nat.min (length (a :: b :: c :: rest)) 3) with 3%nat
    by (cbn [length]; lia).
  reflexivity.
Qed.

Section Services.

Variable nominatim : string -> GeoReply.
Variable osrm : Coords -> Coords -> OsrmReply.

Lemma fetch_osrm_routes_inv (from to : Coords) (c c' : Cache)
    (raw_routes : list Route) :
  fetch_osrm_routes osrm from.1 from.2 to.1 to.2 c = (inr raw_routes, c') ->
  c' = c
  /\ exists status reason data,
       osrm from to = OsrmResponse status reason data
       /\ raw_routes = get (o_routes data) [].
Proof.
  unfold fetch_osrm_routes. destruct from, to. cbn [fst snd].
  destruct (osrm _ _) as [msg | status reason data]; [discriminate |].
  destruct (negb (is_success status)); [discriminate |].
  destruct (negb (bool_decide (o_code data = Some "Ok"%string)));
    [discriminate |].
  intros [= <- <-]. eauto 6.
Qed.

(** A successful run of the pipeline, taken apart. *)
Lemma get_routes_inv (origin destination : string) (mode : SafetyMode)
    (cache cache' : Cache) (resp : RouteResponse) :
  get_routes nominatim osrm origin destination mode cache = (inr resp, cache') ->
  exists from to status reason data processed,
    osrm from to = OsrmResponse status reason data
    /\ get (o_routes data) [] <> []
    /\ Forall2 (fun ir info => process_route mode ir cache' = (inr info, cache'))
               (Py.enumerate (take 3 (get (o_routes data) []))) processed
    /\ resp = mkRouteResponse (assign_names (rank processed)) from to "success".
Proof.
  unfold get_routes. unfold bind at 1.
  destruct (geocode nominatim origin cache) as [[e | from] c1]; [discriminate |].
  unfold bind at 1.
  destruct (geocode nominatim destination c1) as [[e | to] c2]; [discriminate |].
  unfold bind at 1.
  destruct (fetch_osrm_routes _ _ _ _ _ c2) as [[e | raw] c3] eqn:Hfetch;
    [discriminate |].
  apply fetch_osrm_routes_inv in Hfetch
    as (-> & status & reason & data & Hosrm & ->).
  destruct (get (o_routes data) []) as [| r rest] eqn:Hraw; [discriminate |].
  unfold bind.
  destruct (for_each _ _ c2) as [[e | processed] c4] eqn:Hloop; [discriminate |].
  apply for_each_process_route in Hloop as [-> Hall].
  intros [= <- <-].
  exists from, to, status, reason, data, processed.
  rewrite Hraw. repeat split; [exact Hosrm | discriminate | exact Hall].
Qed.

(** The scoring loop succeeds on candidates that carry a duration. *)
Lemma for_each_process_route_returns (mode : SafetyMode)
    (irs : list (nat * Route)) (c : Cache) :
  Forall (fun ir : nat * Route => is_Some (r_duration ir.2)) irs ->
  exists processed,
    for_each (process_route mode) irs c = (inr processed, c)
    /\ length processed = length irs.
Proof.
  induction 1 as [| [i route] irs [d Hd] _ (processed & IH & Hlen)].
  - exists []. split; reflexivity.
  - cbn [for_each]. unfold bind, process_route at 1.
    cbn [snd] in Hd. rewrite Hd. cbn [ret]. rewrite IH.
    eexists. split; [reflexivity |]. cbn [length]. now rewrite Hlen.
Qed.

(** The pipeline returns whenever both places resolve, the routing
    service answers "Ok" with at least one route, and the first three
    routes carry a duration. *)
Lemma get_routes_returns (origin destination : string) (mode : SafetyMode)
    (cache c1 c2 : Cache) (from to : Coords)
    (status : Z) (reason : string) (data : OsrmBody) :
  geocode nominatim origin cache = (inr from, c1) ->
  geocode nominatim destination c1 = (inr to, c2) ->
  osrm from to = OsrmResponse status reason data ->
  is_success status = true ->
  o_code data = Some "Ok"%string ->
  get (o_routes data) [] <> [] ->
  Forall (fun r => is_Some (r_duration r)) (take 3 (get (o_routes data) [])) ->
  exists resp,
    get_routes nominatim osrm origin destination mode cache = (inr resp, c2)
    /\ length (routes resp) = Nat.min (length (get (o_routes data) [])) 3.
Proof.
  intros Hfrom Hto Hosrm Hok Hcode Hne Hdur.
  unfold get_routes. unfold bind at 1. rewrite Hfrom.
  unfold bind at 1. rewrite Hto.
  unfold bind at 1, fetch_osrm_routes.
  destruct from as [from_lat from_lng], to as [to_lat to_lng]. cbn [fst snd].
  rewrite Hosrm, Hok, Hcode. cbn [negb]. rewrite bool_decide_eq_true_2 by done.
  cbn [negb ret].
  destruct (get (o_routes data) []) as [| r rest] eqn:Hraw; [congruence |].
  destruct (for_each_process_route_returns mode
              (Py.enumerate (take 3 (r :: rest))) c2)
    as (processed & Hloop & Hlen).
  { apply Forall_forall. intros [i route] Hin.
    apply elem_of_lookup_imap_1 in Hin as (i' & route' & [= -> ->] & Hlook).
    apply list_elem_of_lookup_2 in Hlook.
    rewrite Forall_forall in Hdur. now apply Hdur. }
  unfold bind. rewrite Hloop. eexists. split; [reflexivity |].
  cbn [routes]. unfold assign_names, rank.
  rewrite length_imap, (Permutation_length (Ranking.sort_reverse_perm _ _)), Hlen.
  unfold Py.enumerate. rewrite length_imap, length_take. lia.
Qed.

(** C10: when the pipeline returns, the provider's reply held some
    [raw_routes]; with [k] their number capped at 3, [k] is between 1
    and 3, the ids of the returned routes are "route_1" to "route_k",
    each once, and the route with id "route_(i+1)" was made from
    candidate [i] of the provider's reply. *)
Theorem returned_ids_name_original_positions
    (origin destination : string) (mode : SafetyMode)
    (cache cache' : Cache) (resp : RouteResponse) :
  get_routes nominatim osrm origin destination mode cache = (inr resp, cache') ->
  exists from to status reason data,
    osrm from to = OsrmResponse status reason data
    /\ let raw_routes := get (o_routes data) [] in
       let k := Nat.min (length raw_routes) 3 in
       (1 <= k <= 3)%nat
       /\ Permutation (map id (routes resp)) (take k route_ids)
       /\ Forall (fun info =>
                    exists i route processed,
                      raw_routes !! i = Some route
                      /\ (i < 3)%nat
                      /\ id info = ("route_" ++ Py.str_of_nat (i + 1))%string
                      /\ process_route mode (i, route) cache' = (inr processed, cache')
                      /\ made_from info processed)
                 (routes resp).
Proof.
  intros Hget.
  apply get_routes_inv in Hget
    as (from & to & status & reason & data & processed & Hosrm & Hne & Hall & ->).
  exists from, to, status, reason, data. split; [exact Hosrm |].
  cbv zeta. cbn [routes]. split; [| split].
  - destruct (get (o_routes data) []); [congruence | cbn [length]; lia].
  - rewrite assign_names_ids, <- enumerate_ids, <- (processed_ids _ _ _ _ Hall).
    apply Permutation_map, Ranking.sort_reverse_perm.
  - apply Forall_forall. intros info Hinfo.
    apply list_elem_of_lookup in Hinfo as [j Hj].
    destruct (Forall2_lookup_r _ _ _ _ _ (assign_names_made_from _) Hj)
      as (p & Hp & Hmade).
    apply list_elem_of_lookup_2 in Hp.
    rewrite (Ranking.sort_reverse_perm safety_score processed : rank processed ≡ₚ processed) in Hp.
    apply list_elem_of_lookup in Hp as [n Hn].
    destruct (Forall2_lookup_r _ _ _ _ _ Hall Hn) as ([i route] & Hir & Hone).
    apply list_elem_of_lookup_2, elem_of_lookup_imap_1 in Hir
      as (i' & route' & [= -> ->] & Hlook).
    apply lookup_take_Some in Hlook as [Hlook Hlt].
    exists i', route', p. repeat split; try assumption.
    rewrite (made_from_id _ _ Hmade).
    now apply process_route_inv in Hone as (_ & -> & _).
Qed.

End Services.

Lemma made_from_score (info p : RouteInfo) :
  made_from info p -> safety_score info = safety_score p.
Proof. unfold made_from. now intros ->. Qed.

Lemma scores_below_made_from (x : Q) (l l' : list RouteInfo) :
  Forall2 (fun p info => made_from info p) l l' ->
  Forall (fun b => safety_score b <= x) l ->
  Forall (fun b => safety_score b <= x) l'.
Proof.
  induction 1 as [| p info l l' Hm _ IH]; intros Hl; [constructor |].
  apply Forall_cons in Hl as [Hp Hl]. constructor; [| now apply IH].
  now rewrite (made_from_score _ _ Hm).
Qed.

Lemma descending_made_from (l l' : list RouteInfo) :
  Forall2 (fun p info => made_from info p) l l' ->
  descending safety_score l -> descending safety_score l'.
Proof.
  unfold descending.
  induction 1 as [| p info l l' Hm Hall IH]; intros Hsorted; [constructor |].
  apply StronglySorted_inv in Hsorted as [Hl Hp].
  constructor; [now apply IH |].
  rewrite (made_from_score _ _ Hm).
  now apply (scores_below_made_from _ l l').
Qed.

(** The list a response carries is in non-increasing order of score. *)
Lemma returned_routes_descending (nominatim : string -> GeoReply)
    (osrm : Coords -> Coords -> OsrmReply)
    (origin destination : string) (mode : SafetyMode)
    (cache cache' : Cache) (resp : RouteResponse) :
  get_routes nominatim osrm origin destination mode cache = (inr resp, cache') ->
  descending safety_score (routes resp).
Proof.
  intros Hget.
  apply get_routes_inv in Hget
    as (from & to & status & reason & data & processed & _ & _ & _ & ->).
  cbn [routes].
  apply (descending_made_from _ _ (assign_names_made_from _)).
  apply Ranking.sort_reverse_descending.
Qed.

(** A run of the pipeline on four alternatives, both places cached. *)
Lemma sample_run :
  exists resp,
    get_routes nominatim_down osrm_four "Delhi" "Jaipur" night _geocode_cache
    = (inr resp, _geocode_cache)
    /\ map id (routes resp) = ["route_2"; "route_3"; "route_1"]%string.
Proof.
  unfold get_routes. unfold bind at 1.
  rewrite (Pipeline.geocode_cached nominatim_down "Delhi" _ (28.6139, 77.2090))
    by (vm_compute; reflexivity).
  unfold bind at 1.
  rewrite (Pipeline.geocode_cached nominatim_down "Jaipur" _ (26.9124, 75.7873))
    by (vm_compute; reflexivity).
  eexists. split.
  - generalize _geocode_cache. intros c. vm_compute. reflexivity.
  - vm_compute. reflexivity.
Qed.

Lemma returned_ids_name_original_positions_witness :
  exists resp from to status reason data,
    map id (routes resp) = ["route_2"; "route_3"; "route_1"]%string
    /\ osrm_four from to = OsrmResponse status reason data
    /\ Permutation (map id (routes resp))
                   (take (Nat.min (length (get (o_routes data) [])) 3) route_ids).
Proof.
  destruct sample_run as (resp & Hget & Hids).
  destruct (returned_ids_name_original_positions nominatim_down osrm_four
              "Delhi" "Jaipur" night _geocode_cache _geocode_cache resp Hget)
    as (from & to & status & reason & data & Hosrm & _ & Hperm & _).
  exists resp, from, to, status, reason, data.
  repeat split; assumption.
Defined.

End Identifiers.

(** * Further properties of the code *)

(** ** Isolation *)

Module Isolation.

Import safety_engine Metrics Notions Samples MoreSamples PyFacts FeatureFacts.

Lemma total_step_distance_nonneg (steps : list Step) :
  distances_nonneg steps -> 0 <= total_step_distance steps.
Proof.
  induction 1 as [| s steps Hs _ IH]; [apply Qle_refl |].
  rewrite total_step_distance_cons.
  apply (Qplus_le_compat 0 _ 0 _ Hs IH).
Qed.

(** The running maximum never decreases. *)
Lemma isolation_loop_longest_mono (steps : list Step) (c l : Q) :
  l <= (fold_left isolation_step steps (c, l)).2.
Proof.
  revert c l. induction steps as [| s steps IH]; intros c l; [apply Qle_refl |].
  cbn [fold_left]. unfold isolation_step at 2.
  destruct (is_isolated s); [apply IH |].
  destruct (Py.Qgtb c l) eqn:Hgt; [| apply IH].
  apply Qgtb_gt in Hgt. eapply Qle_trans; [| apply IH]. now apply Qlt_le_weak.
Qed.

(** With no negative distance, neither the current run nor the running
    maximum exceeds a bound that the distances still to come respect. *)
Lemma isolation_loop_bounds (steps : list Step) (c l B : Q) :
  distances_nonneg steps ->
  0 <= c -> l <= B -> c + total_step_distance steps <= B ->
  0 <= (fold_left isolation_step steps (c, l)).1
  /\ (fold_left isolation_step steps (c, l)).1 <= B
  /\ (fold_left isolation_step steps (c, l)).2 <= B.
Proof.
  intros Hnn. revert c l.
  induction Hnn as [| s steps Hs Hnn IH]; intros c l Hc Hl HB.
  - cbn in *. rewrite Qplus_0_r in HB. auto.
  - rewrite total_step_distance_cons in HB.
    pose proof (total_step_distance_nonneg _ Hnn) as Htot.
    cbn [fold_left]. unfold isolation_step at 2 4 6.
    fold (step_distance s).
    destruct (is_isolated s).
    + apply IH.
      * apply (Qplus_le_compat 0 _ 0 _ Hc Hs).
      * exact Hl.
      * now rewrite <- Qplus_assoc.
    + assert (HcB : c <= B).
      { eapply Qle_trans; [| exact HB].
        rewrite <- (Qplus_0_r c) at 1. apply Qplus_le_compat; [apply Qle_refl |].
        apply (Qplus_le_compat 0 _ 0 _ Hs Htot). }
      apply IH.
      * apply Qle_refl.
      * now destruct (Py.Qgtb c l).
      * rewrite Qplus_0_l. eapply Qle_trans; [| exact HB].
        rewrite <- (Qplus_0_l (total_step_distance steps)) at 1.
        apply Qplus_le_compat; [exact Hc |].
        rewrite <- (Qplus_0_l (total_step_distance steps)) at 1.
        apply Qplus_le_compat; [exact Hs | apply Qle_refl].
Qed.

(** X1: the longest isolated segment is never negative, and when no step
    has a negative distance it is at most the sum of the step distances in
    kilometres. *)
Theorem isolation_bounds (steps : list Step) :
  0 <= _compute_isolation steps
  /\ (distances_nonneg steps ->
      _compute_isolation steps <= total_step_distance steps / 1000).
Proof.
  unfold _compute_isolation. split.
  - pose proof (isolation_loop_longest_mono steps 0 0) as Hmono.
    destruct (fold_left isolation_step steps (0, 0)) as [c l]. cbn [snd] in Hmono.
    assert (H0 : 0 <= (if Py.Qgtb c l then c else l)).
    { destruct (Py.Qgtb c l) eqn:Hgt; [| exact Hmono].
      apply Qgtb_gt in Hgt.
      eapply Qle_trans; [exact Hmono | now apply Qlt_le_weak]. }
    apply Qdiv_1000_le in H0.
    eapply Qle_trans; [| exact H0]. vm_compute. discriminate.
  - intros Hnn.
    pose proof (total_step_distance_nonneg _ Hnn) as Htot.
    destruct (isolation_loop_bounds steps 0 0 (total_step_distance steps) Hnn)
      as (_ & Hc & Hl);
      [apply Qle_refl | exact Htot | rewrite Qplus_0_l; apply Qle_refl |].
    destruct (fold_left isolation_step steps (0, 0)) as [c l]. cbn [fst snd] in *.
    apply Qdiv_1000_le. now destruct (Py.Qgtb c l).
Qed.

Lemma isolation_bounds_witness :
  _compute_isolation split_steps <= total_step_distance split_steps / 1000.
Proof.
  apply (isolation_bounds split_steps).
  repeat constructor; vm_compute; discriminate.
Defined.

(** X2: a named step between two runs of unnamed steps splits them: the
    longest isolated segment is the longer of the two runs, in kilometres. *)
Theorem isolation_split (run1 run2 : list Step) (named : Step) :
  all_isolated run1 -> all_isolated run2 -> is_isolated named = false ->
  0 <= total_step_distance run1 ->
  _compute_isolation (run1 ++ named :: run2)
  == Qlarger (total_step_distance run2) (total_step_distance run1) / 1000.
Proof.
  intros H1 H2 Hnamed Hnn. unfold _compute_isolation.
  rewrite fold_left_app. cbn [fold_left].
  destruct (isolation_run run1 0 0 H1) as (c1 & -> & Hc1).
  rewrite Qplus_0_l in Hc1.
  unfold isolation_step at 2. rewrite Hnamed.
  set (l1 := if Py.Qgtb c1 0 then c1 else 0).
  assert (Hl1 : l1 == total_step_distance run1).
  { unfold l1. destruct (Py.Qgtb c1 0) eqn:Hgt; [exact Hc1 |].
    apply Qgtb_false in Hgt. rewrite Hc1 in Hgt. now apply Qle_antisym. }
  destruct (isolation_run run2 0 l1 H2) as (c2 & -> & Hc2).
  rewrite Qplus_0_l in Hc2. unfold Qlarger.
  assert (Hcmp : Py.Qgtb c2 l1
                 = Py.Qgtb (total_step_distance run2) (total_step_distance run1))
    by now rewrite Hc2, Hl1.
  rewrite Hcmp.
  destruct (Py.Qgtb (total_step_distance run2) (total_step_distance run1));
    [now rewrite Hc2 | now rewrite Hl1].
Qed.

Lemma isolation_split_witness :
  _compute_isolation split_steps == 5.
Proof.
  rewrite (isolation_split [step "depart" "" "" 1000; step "turn" "" "" 2000]
             [step "turn" "" "" 5000] ring_road).
  - reflexivity.
  - repeat constructor.
  - repeat constructor.
  - reflexivity.
  - vm_compute. discriminate.
Defined.

Lemma isolation_loop_named (steps : list Step) :
  Forall (fun s => is_isolated s = false) steps ->
  fold_left isolation_step steps (0, 0) = (0, 0).
Proof.
  induction 1 as [| s steps Hs _ IH]; [reflexivity |].
  cbn [fold_left]. unfold isolation_step at 2. rewrite Hs. exact IH.
Qed.

(** X3: a route on which every step has a road name or a reference has no
    isolated segment and no isolation penalty, by day and by night. *)
Theorem no_isolation_on_named_roads (route : Route) (mode : SafetyMode) :
  Forall (fun s => is_isolated s = false) (_extract_steps route) ->
  _compute_isolation (_extract_steps route) == 0
  /\ isolation (penalties (compute_safety route mode)) = 0%Z.
Proof.
  intros Hnamed.
  assert (Hiso : _compute_isolation (_extract_steps route) == 0).
  { unfold _compute_isolation. now rewrite (isolation_loop_named _ Hnamed). }
  split; [exact Hiso |].
  unfold compute_safety. cbn [penalties]. unfold compute_penalties.
  cbn [isolation].
  assert (H50 : Py.Qgtb (_compute_isolation (_extract_steps route)) 50 = false)
    by now rewrite Hiso.
  assert (H20 : Py.Qgtb (_compute_isolation (_extract_steps route)) 20 = false)
    by now rewrite Hiso.
  rewrite H50, H20. now destruct mode.
Qed.

Lemma no_isolation_on_named_roads_witness :
  isolation (penalties (compute_safety trunk_route night)) = 0%Z.
Proof.
  apply (no_isolation_on_named_roads trunk_route night).
  repeat constructor.
Defined.

End Isolation.

(** ** Metrics and penalties *)

Module MetricFacts.

Import safety_engine Metrics Notions Samples MoreSamples PyFacts SafetyFacts
       FeatureFacts RoadQuality Isolation.




Lemma count_turns_none (steps : list Step) :
  Forall (fun s => is_turn s = false) steps -> count_turns steps = 0%nat.
Proof.
  unfold count_turns. induction 1 as [| s steps Hs _ IH]; [reflexivity |].
  cbn [List.filter]. now rewrite Hs.
Qed.

(** X5: the turn density is never negative; on a route whose steps are all
    "depart" or "arrive" maneuvers it is 0 and the turn-density penalty is
    0 in both modes. *)
Theorem turn_density_of_straight_route (route : Route) (mode : SafetyMode) :
  0 <= _compute_turn_density (_extract_steps route) (get (r_distance route) 0 / 1000)
  /\ (Forall (fun s => is_turn s = false) (_extract_steps route) ->
      _compute_turn_density (_extract_steps route) (get (r_distance route) 0 / 1000)
        == 0
      /\ turn_density (penalties (compute_safety route mode)) = 0%Z).
Proof.
  split.
  - unfold _compute_turn_density.
    destruct (Py.Qleb (get (r_distance route) 0 / 1000) 0) eqn:Hle;
      [apply Qle_refl |].
    apply not_true_iff_false in Hle. rewrite Qleb_le in Hle.
    apply Qnot_le_lt in Hle.
    apply Qle_shift_div_l; [exact Hle |]. rewrite Qmult_0_l.
    rewrite <- (Zle_Qle 0). lia.
  - intros Hnone.
    assert (Htd : _compute_turn_density (_extract_steps route)
                    (get (r_distance route) 0 / 1000) == 0).
    { unfold _compute_turn_density. rewrite (count_turns_none _ Hnone).
      destruct (Py.Qleb _ 0); [reflexivity |].
      unfold Qdiv. now rewrite Qmult_0_l. }
    split; [exact Htd |].
    unfold compute_safety. cbn [penalties]. unfold compute_penalties.
    cbn [turn_density].
    assert (H : Py.Qltb (_compute_turn_density (_extract_steps route)
                           (get (r_distance route) 0 / 1000)) 1 = true)
      by now rewrite Htd.
    now rewrite H.
Qed.

Lemma turn_density_of_straight_route_witness :
  turn_density (penalties (compute_safety trunk_route night)) = 0%Z.
Proof.
  apply (turn_density_of_straight_route trunk_route night).
  repeat constructor.
Defined.




Lemma speed_antitone (distance_m t t' : Q) :
  0 < distance_m -> 0 < t -> t <= t' ->
  distance_m / 1000 / (t' / 3600) <= distance_m / 1000 / (t / 3600).
Proof.
  intros Hd Ht Htt'.
  assert (Ht' : 0 < t') by now apply Qlt_le_trans with t.
  assert (Hx : 0 < t / 3600) by (apply Qlt_shift_div_l; [reflexivity | now rewrite Qmult_0_l]).
  assert (Hx' : 0 < t' / 3600) by (apply Qlt_shift_div_l; [reflexivity | now rewrite Qmult_0_l]).
  assert (Ha : 0 <= distance_m / 1000).
  { apply Qle_shift_div_l; [reflexivity |]. rewrite Qmult_0_l. now apply Qlt_le_weak. }
  apply Qle_shift_div_r; [exact Hx' |].
  apply Qle_trans with (distance_m / 1000 / (t / 3600) * (t / 3600)).
  - assert (Heq : distance_m / 1000 / (t / 3600) * (t / 3600) == distance_m / 1000).
    { field. intros H0. rewrite H0 in Ht. now apply Qlt_irrefl in Ht. }
    rewrite Heq. apply Qle_refl.
  - rewrite !(Qmult_comm (distance_m / 1000 / (t / 3600))).
    apply Qmult_le_compat_r.
    + unfold Qdiv. apply Qmult_le_compat_r; [exact Htt' | discriminate].
    + apply Qle_shift_div_l; [exact Hx |]. now rewrite Qmult_0_l.
Qed.

(** X7: over a positive distance a longer (positive) duration never
    improves the traffic class: heavy traffic stays heavy, and a drive
    classed as light traffic is so for every shorter duration. *)
Theorem traffic_monotone (distance_m t t' : Q) :
  0 < distance_m -> 0 < t -> t <= t' ->
  (_classify_traffic t distance_m = "High"%string ->
   _classify_traffic t' distance_m = "High"%string)
  /\ (_classify_traffic t' distance_m = "Low"%string ->
      _classify_traffic t distance_m = "Low"%string).
Proof.
  intros Hd Ht Htt'.
  assert (Ht' : 0 < t') by now apply Qlt_le_trans with t.
  pose proof (speed_antitone distance_m t t' Hd Ht Htt') as Hspeed.
  unfold _classify_traffic.
  assert (Hd0 : Py.Qleb distance_m 0 = false).
  { apply not_true_iff_false. rewrite Qleb_le. now apply Qlt_not_le. }
  assert (Ht0 : Py.Qleb t 0 = false).
  { apply not_true_iff_false. rewrite Qleb_le. now apply Qlt_not_le. }
  assert (Ht'0 : Py.Qleb t' 0 = false).
  { apply not_true_iff_false. rewrite Qleb_le. now apply Qlt_not_le. }
  rewrite Hd0, Ht0, Ht'0. cbn [orb].
  set (s := distance_m / 1000 / (t / 3600)) in *.
  set (s' := distance_m / 1000 / (t' / 3600)) in *.
  split.
  - destruct (Py.Qgeb s 70) eqn:H70; [discriminate |].
    destruct (Py.Qgeb s 45) eqn:H45; [discriminate |]. intros _.
    assert (H70' : Py.Qgeb s' 70 = false).
    { apply not_true_iff_false. rewrite Qgeb_ge. intros H.
      apply not_true_iff_false in H70. apply H70. apply Qgeb_ge.
      now apply Qle_trans with s'. }
    assert (H45' : Py.Qgeb s' 45 = false).
    { apply not_true_iff_false. rewrite Qgeb_ge. intros H.
      apply not_true_iff_false in H45. apply H45. apply Qgeb_ge.
      now apply Qle_trans with s'. }
    now rewrite H70', H45'.
  - destruct (Py.Qgeb s' 70) eqn:H70'.
    + intros _. apply Qgeb_ge in H70'.
      assert (H70 : Py.Qgeb s 70 = true)
        by (apply Qgeb_ge; now apply Qle_trans with s').
      now rewrite H70.
    + destruct (Py.Qgeb s' 45); discriminate.
Qed.

Lemma traffic_monotone_witness :
  _classify_traffic 14400 60000 = "High"%string.
Proof.
  apply (traffic_monotone 60000 7200 14400).
  - reflexivity.
  - reflexivity.
  - vm_compute. discriminate.
  - reflexivity.
Defined.

Lemma raw_score_night_day hr td iso dur tl :
  (raw_score (compute_penalties night hr td iso dur tl)
   <= raw_score (compute_penalties day hr td iso dur tl)
   <= raw_score (compute_penalties night hr td iso dur tl) + 10)%Z.
Proof. penalty_cases. Qed.

Lemma score_is_raw (route : Route) (mode : SafetyMode) :
  score (compute_safety route mode)
  == inject_Z (raw_score (penalties (compute_safety route mode))) / 10.
Proof.
  rewrite score_eq.
  pose proof (raw_score_bounds mode
    (_compute_highway_ratio (_extract_steps route) (get (r_distance route) 0))
    (_compute_turn_density (_extract_steps route) (get (r_distance route) 0 / 1000))
    (_compute_isolation (_extract_steps route))
    (get (r_duration route) 0 / 3600)
    (_classify_traffic (get (r_duration route) 0) (get (r_distance route) 0)))
    as Hraw.
  unfold compute_safety. cbn [penalties]. unfold Py.max.
  now rewrite Z.max_r by lia.
Qed.

(** X8: a route never scores higher by night than by day, and the two
    scores differ by at most one point. *)
Theorem night_never_safer (route : Route) :
  score (compute_safety route night) <= score (compute_safety route day)
  /\ score (compute_safety route day) <= score (compute_safety route night) + 1.
Proof.
  rewrite !score_is_raw. unfold compute_safety. cbn [penalties].
  pose proof (raw_score_night_day
    (_compute_highway_ratio (_extract_steps route) (get (r_distance route) 0))
    (_compute_turn_density (_extract_steps route) (get (r_distance route) 0 / 1000))
    (_compute_isolation (_extract_steps route))
    (get (r_duration route) 0 / 3600)
    (_classify_traffic (get (r_duration route) 0) (get (r_distance route) 0)))
    as [Hle Hge].
  set (n := raw_score (compute_penalties night _ _ _ _ _)) in *.
  set (d := raw_score (compute_penalties day _ _ _ _ _)) in *.
  split.
  - unfold Qdiv. apply Qmult_le_compat_r; [| discriminate]. now rewrite <- Zle_Qle.
  - assert (H : inject_Z n / 10 + 1 == inject_Z (n + 10) / 10)
      by (rewrite inject_Z_plus; field).
    rewrite H. unfold Qdiv. apply Qmult_le_compat_r; [| discriminate].
    now rewrite <- Zle_Qle.
Qed.

(** X9: each penalty takes one of three values: 0, -5 or -10 for turn
    density, duration and traffic; 0, -7 or -15 for isolation by day and
    0, -10 or -22 by night; 0, -5 or -10 for road type by day and 0, -6 or
    -13 by night. *)
Theorem penalty_values (route : Route) (mode : SafetyMode) :
  let p := penalties (compute_safety route mode) in
  In (turn_density p) [0; -5; -10]%Z
  /\ In (duration p) [0; -5; -10]%Z
  /\ In (traffic p) [0; -5; -10]%Z
  /\ In (isolation p) (if is_night mode then [0; -10; -22] else [0; -7; -15])%Z
  /\ In (road_type p) (if is_night mode then [0; -6; -13] else [0; -5; -10])%Z.
Proof.
  cbv zeta. unfold compute_safety. cbn [penalties].
  generalize (_compute_highway_ratio (_extract_steps route) (get (r_distance route) 0)).
  generalize (_compute_turn_density (_extract_steps route) (get (r_distance route) 0 / 1000)).
  generalize (_compute_isolation (_extract_steps route)).
  generalize (_classify_traffic (get (r_duration route) 0) (get (r_distance route) 0)).
  generalize (get (r_duration route) 0 / 3600).
  intros dur tl iso td hr.
  unfold compute_penalties.
  cbn [turn_density duration traffic isolation road_type].
  repeat split.
  - destruct (Py.Qltb td 1); [| destruct (Py.Qleb td 2)]; cbn; auto.
  - destruct (Py.Qgtb dur 8); [| destruct (Py.Qgtb dur 6)]; cbn; auto.
  - destruct (String.eqb tl "High"); [| destruct (String.eqb tl "Moderate")];
      cbn; auto.
  - destruct mode; cbn [is_night];
      (destruct (Py.Qgtb iso 50); [| destruct (Py.Qgtb iso 20)]);
      vm_compute; auto.
  - destruct mode; cbn [is_night andb];
      (destruct (Py.Qgtb hr 0.7); [| destruct (Py.Qgeb hr 0.4)]);
      vm_compute; auto.
Qed.

End MetricFacts.

(** ** Reported figures *)

Module Rounding.

Import safety_engine Metrics Notions PyFacts.





End Rounding.

(** ** Steps, road names and road quality *)

Module RouteFacts.

Import safety_engine route_service Metrics Notions Samples MoreSamples PyFacts
       FeatureFacts RoadQuality.

(** A loop over the legs with a loop over each leg's steps inside is one
    loop over the flattened steps. *)
Lemma fold_legs {B} (g : B -> Step -> B) (legs : list Leg) (pre : list Step) (acc : B) :
  fold_left (fun a leg => fold_left g (get (l_steps leg) []) a) legs
            (fold_left g pre acc)
  = fold_left g
      (fold_left (fun steps leg => steps ++ get (l_steps leg) []) legs pre) acc.
Proof.
  revert pre. induction legs as [| leg legs IH]; intros pre; [reflexivity |].
  cbn [fold_left]. rewrite <- fold_left_app. apply IH.
Qed.

Lemma fold_route_steps {B} (g : B -> Step -> B) (route : Route) (acc : B) :
  fold_left (fun a leg => fold_left g (get (l_steps leg) []) a)
            (get (r_legs route) []) acc
  = fold_left g (_extract_steps route) acc.
Proof. apply (fold_legs g _ [] acc). Qed.

Lemma fold_append_map {A B} (f : A -> B) (l : list A) (acc : list B) :
  fold_left (fun out x => out ++ [f x]) l acc = acc ++ map f l.
Proof.
  revert acc. induction l as [| x l IH]; intros acc; cbn [fold_left map].
  - now rewrite app_nil_r.
  - rewrite IH, <- app_assoc. reflexivity.
Qed.

(** X11: navigation receives one lean step per raw step of the route, in
    the order of the legs and of the steps within each leg. *)
Theorem navigation_steps_mirror_route (route : Route) :
  extract_navigation_steps route = map lean_step (_extract_steps route)
  /\ length (extract_navigation_steps route) = length (_extract_steps route).
Proof.
  assert (H : extract_navigation_steps route = map lean_step (_extract_steps route)).
  { unfold extract_navigation_steps.
    etransitivity;
      [exact (fold_route_steps (fun out step => out ++ [lean_step step]) route [])
      | apply (fold_append_map lean_step)]. }
  split; [exact H |]. rewrite H. apply length_map.
Qed.

End RouteFacts.

Module RoadSummary.

Import safety_engine route_service Metrics Notions Samples MoreSamples PyFacts
       FeatureFacts RoadQuality RouteFacts.

Lemma add_distance_keys (n : string) (d : Q) (rd : list (string * Q)) (k : string) :
  In k (map fst (add_distance n d rd)) <-> k = n \/ In k (map fst rd).
Proof.
  induction rd as [| [m x] rd IH]; cbn [add_distance map fst In].
  - intuition congruence.
  - destruct (String.eqb m n) eqn:Hmn; cbn [map fst In].
    + apply String.eqb_eq in Hmn. subst m. intuition congruence.
    + rewrite IH. intuition.
Qed.

Lemma summary_keys (steps : list Step) (acc : list (string * Q)) (k : string) :
  In k (map fst (fold_left summary_step steps acc))
  <-> In k (map fst acc)
      \/ In k (List.filter (fun n => negb (Py.is_empty n)) (map road_name steps)).
Proof.
  revert acc. induction steps as [| s steps IH]; intros acc;
    cbn [fold_left map List.filter In]; [intuition |].
  rewrite IH. unfold summary_step. fold (road_name s).
  destruct (negb (Py.is_empty (road_name s))); cbn [In].
  - rewrite add_distance_keys. intuition congruence.
  - reflexivity.
Qed.

Lemma road_distances_keys (route : Route) (k : string) :
  In k (map fst (fold_left summary_step (_extract_steps route) []))
  <-> In k (road_names route).
Proof. rewrite summary_keys. cbn [map In]. unfold road_names. intuition. Qed.

Lemma max_key_in (rds : list (string * Q)) (best : string * Q) :
  max_key rds best = best.1 \/ In (max_key rds best) (map fst rds).
Proof.
  revert best. induction rds as [| [n x] rds IH]; intros best;
    cbn [max_key map fst In]; [now left |].
  destruct (Py.Qgtb x best.2).
  - destruct (IH (n, x)) as [-> | H]; cbn [fst]; auto.
  - destruct (IH best) as [-> | H]; auto.
Qed.

Lemma extract_road_summary_eq (route : Route) :
  extract_road_summary route
  = match fold_left summary_step (_extract_steps route) [] with
    | [] => "Local Roads"%string
    | first :: others =>
        match List.find (fun item => Py.search route_service.HIGHWAY_PATTERN item.1)
                        (Py.sort_reverse snd (first :: others)) with
        | Some (name, _) => name
        | None => max_key others first
        end
    end.
Proof.
  unfold extract_road_summary.
  change (fold_left _ (get (r_legs route) []) [])
    with (fold_left (fun a leg => fold_left summary_step (get (l_steps leg) []) a)
                    (get (r_legs route) []) []).
  rewrite (fold_route_steps summary_step route []).
  now destruct (fold_left summary_step (_extract_steps route) []).
Qed.

(** X12: the road summary is "Local Roads" when no step has a road name
    (blank names count as none); otherwise it is the trimmed name of one of
    the route's steps. *)
Theorem road_summary_is_a_road_name (route : Route) :
  (road_names route = [] -> extract_road_summary route = "Local Roads"%string)
  /\ (road_names route <> [] -> In (extract_road_summary route) (road_names route)).
Proof.
  rewrite extract_road_summary_eq.
  pose proof (road_distances_keys route) as Hkeys.
  destruct (fold_left summary_step (_extract_steps route) []) as [| first others].
  - split; [reflexivity |]. intros Hne.
    destruct (road_names route) as [| n ns]; [congruence |].
    exfalso. apply (proj2 (Hkeys n)). now left.
  - split.
    + intros Hnil. exfalso.
      pose proof (proj1 (Hkeys first.1)) as H. rewrite Hnil in H.
      apply H. now left.
    + intros _. apply Hkeys.
      destruct (List.find _ _) as [[name v] |] eqn:Hfind.
      * apply List.find_some in Hfind as [Hin _].
        apply (Permutation_in _ (Ranking.sort_reverse_perm snd (first :: others)))
          in Hin.
        apply (in_map fst) in Hin. exact Hin.
      * destruct (max_key_in others first) as [-> | H]; cbn [map In]; auto.
Qed.

Lemma road_summary_is_a_road_name_witness :
  In (extract_road_summary long_highway_route) (road_names long_highway_route).
Proof.
  apply (road_summary_is_a_road_name long_highway_route).
  vm_compute. discriminate.
Defined.

(** X13: when some road name of the route matches the highway pattern, so
    does the road summary: a highway is preferred to any other road. *)
Theorem road_summary_prefers_highways (route : Route) (n : string) :
  In n (road_names route) ->
  Py.search route_service.HIGHWAY_PATTERN n = true ->
  Py.search route_service.HIGHWAY_PATTERN (extract_road_summary route) = true.
Proof.
  intros Hn Hmatch. rewrite extract_road_summary_eq.
  apply road_distances_keys in Hn.
  destruct (fold_left summary_step (_extract_steps route) []) as [| first others];
    [destruct Hn |].
  destruct (List.find _ _) as [[name v] |] eqn:Hfind.
  - now apply List.find_some in Hfind as [_ Hname].
  - exfalso. apply in_map_iff in Hn as ([n' v] & Heq & Hin). cbn in Heq. subst n'.
    apply (Permutation_in _ (Permutation_sym
             (Ranking.sort_reverse_perm snd (first :: others)))) in Hin.
    pose proof (List.find_none _ _ Hfind (n, v)) as Hnone.
    specialize (Hnone Hin).
    cbn [fst] in Hnone. rewrite Hmatch in Hnone. discriminate.
Qed.

Lemma road_summary_prefers_highways_witness :
  Py.search route_service.HIGHWAY_PATTERN (extract_road_summary long_highway_route)
  = true.
Proof.
  apply (road_summary_prefers_highways long_highway_route "NH 48").
  - vm_compute. auto.
  - reflexivity.
Defined.

Lemma highway_distance_none (alts : list string) (steps : list Step) :
  Forall (fun s => on_highway alts s = false) steps ->
  highway_distance alts steps = 0.
Proof.
  induction 1 as [| s steps Hs _ IH]; [reflexivity |].
  now rewrite highway_distance_cons, Hs.
Qed.

Lemma highway_distance_all (alts : list string) (steps : list Step) :
  Forall (fun s => on_highway alts s = true) steps ->
  highway_distance alts steps = total_step_distance steps.
Proof.
  induction 1 as [| s steps Hs _ IH]; [reflexivity |].
  now rewrite highway_distance_cons, Hs, IH.
Qed.

(** X14: a route none of whose steps matches the classifier's highway
    pattern has road quality "Average"; a route all of whose steps match,
    with a positive total step distance, has road quality "Excellent". *)
Theorem road_quality_extremes (route : Route) :
  (Forall (fun s => on_highway route_service.HIGHWAY_PATTERN s = false)
          (_extract_steps route) ->
   classify_road_quality route = "Average"%string)
  /\ (Forall (fun s => on_highway route_service.HIGHWAY_PATTERN s = true)
             (_extract_steps route) ->
      0 < total_step_distance (_extract_steps route) ->
      classify_road_quality route = "Excellent"%string).
Proof.
  rewrite classify_road_quality_eq. cbv zeta. split.
  - intros Hnone. rewrite (highway_distance_none _ _ Hnone).
    destruct (Py.Qleb _ 0); [reflexivity |].
    assert (H : 0 / total_step_distance (_extract_steps route) == 0)
      by (unfold Qdiv; apply Qmult_0_l).
    now rewrite (quality_of_ratio_proper _ _ H).
  - intros Hall Hpos. rewrite (highway_distance_all _ _ Hall).
    assert (Hle : Py.Qleb (total_step_distance (_extract_steps route)) 0 = false).
    { apply not_true_iff_false. rewrite Qleb_le. now apply Qlt_not_le. }
    rewrite Hle.
    assert (H : total_step_distance (_extract_steps route)
                / total_step_distance (_extract_steps route) == 1).
    { field. intros H0. rewrite H0 in Hpos. now apply Qlt_irrefl in Hpos. }
    now rewrite (quality_of_ratio_proper _ _ H).
Qed.

Lemma road_quality_extremes_witness :
  classify_road_quality trunk_route = "Average"%string.
Proof.
  apply (road_quality_extremes trunk_route). repeat constructor.
Defined.

Lemma sort_reverse_sorted {A} (key : A -> Q) (l : list A) :
  descending key l -> Py.sort_reverse key l = l.
Proof.
  unfold descending. induction 1 as [| x l Hl IH Hx]; [reflexivity |].
  cbn [Py.sort_reverse foldr]. fold (Py.sort_reverse key l). rewrite IH.
  destruct l as [| y l']; [reflexivity |]. cbn [Py.insert_desc].
  apply Forall_cons in Hx as [Hy _]. apply Qgtb_false in Hy. now rewrite Hy.
Qed.

(** X15: ranking a ranked list changes nothing. *)
Theorem rank_idempotent (processed : list RouteInfo) :
  rank (rank processed) = rank processed.
Proof.
  unfold rank. apply sort_reverse_sorted, Ranking.sort_reverse_descending.
Qed.

End RoadSummary.

(** ** Text: trimming, case and the highway patterns *)

Module TextFacts.

Import safety_engine route_service route Metrics Notions Failures Samples MoreSamples.

Lemma lower_ascii_idem (c : ascii) :
  Py.lower_ascii (Py.lower_ascii c) = Py.lower_ascii c.
Proof. destruct c as [[] [] [] [] [] [] [] []]; reflexivity. Qed.

Lemma is_space_lower (c : ascii) : Py.is_space (Py.lower_ascii c) = Py.is_space c.
Proof. destruct c as [[] [] [] [] [] [] [] []]; reflexivity. Qed.

Lemma is_word_char_lower (c : ascii) :
  Py.is_word_char (Py.lower_ascii c) = Py.is_word_char c.
Proof. destruct c as [[] [] [] [] [] [] [] []]; reflexivity. Qed.

Lemma lower_idem (s : string) : Py.lower (Py.lower s) = Py.lower s.
Proof.
  induction s as [| c s IH]; [reflexivity |].
  cbn [Py.lower]. now rewrite lower_ascii_idem, IH.
Qed.

Lemma is_empty_lower (s : string) : Py.is_empty (Py.lower s) = Py.is_empty s.
Proof. now destruct s. Qed.

Lemma lower_lstrip (s : string) : Py.lower (Py.lstrip s) = Py.lstrip (Py.lower s).
Proof.
  induction s as [| c s IH]; [reflexivity |].
  cbn [Py.lstrip Py.lower]. rewrite is_space_lower.
  now destruct (Py.is_space c).
Qed.

Lemma lower_rstrip (s : string) : Py.lower (Py.rstrip s) = Py.rstrip (Py.lower s).
Proof.
  induction s as [| c s IH]; [reflexivity |].
  cbn [Py.rstrip Py.lower]. rewrite is_space_lower, <- IH, is_empty_lower.
  now destruct (Py.is_space c && Py.is_empty (Py.rstrip s)).
Qed.

Lemma lower_strip (s : string) : Py.lower (Py.strip s) = Py.strip (Py.lower s).
Proof. unfold Py.strip. now rewrite lower_rstrip, lower_lstrip. Qed.

(** The text does not begin with whitespace. *)
Lemma lstrip_head (s : string) :
  match Py.lstrip s with
  | EmptyString => True
  | String c _ => Py.is_space c = false
  end.
Proof.
  induction s as [| c s IH]; [exact I |].
  cbn [Py.lstrip]. now destruct (Py.is_space c) eqn:Hc.
Qed.

Lemma lstrip_idem (s : string) : Py.lstrip (Py.lstrip s) = Py.lstrip s.
Proof.
  pose proof (lstrip_head s) as H.
  destruct (Py.lstrip s) as [| c t]; [reflexivity |].
  cbn [Py.lstrip]. now rewrite H.
Qed.

Lemma rstrip_idem (s : string) : Py.rstrip (Py.rstrip s) = Py.rstrip s.
Proof.
  induction s as [| c s IH]; [reflexivity |].
  cbn [Py.rstrip].
  destruct (Py.is_space c && Py.is_empty (Py.rstrip s)) eqn:Hc; [reflexivity |].
  cbn [Py.rstrip]. now rewrite IH, Hc.
Qed.

Lemma lstrip_rstrip_lstrip (s : string) :
  Py.lstrip (Py.rstrip (Py.lstrip s)) = Py.rstrip (Py.lstrip s).
Proof.
  pose proof (lstrip_head s) as H.
  destruct (Py.lstrip s) as [| c t]; [reflexivity |].
  cbn [Py.rstrip]. rewrite H. cbn [andb Py.lstrip]. now rewrite H.
Qed.

Lemma strip_idem (s : string) : Py.strip (Py.strip s) = Py.strip s.
Proof. unfold Py.strip. now rewrite lstrip_rstrip_lstrip, rstrip_idem. Qed.

Lemma lstrip_blank (p : string) : blank p = true -> Py.lstrip p = ""%string.
Proof.
  induction p as [| c p IH]; [reflexivity |].
  cbn [blank Py.lstrip]. intros [-> Hp]%andb_true_iff. now apply IH.
Qed.

Lemma rstrip_blank (p : string) : blank p = true -> Py.rstrip p = ""%string.
Proof.
  induction p as [| c p IH]; [reflexivity |].
  cbn [blank Py.rstrip]. intros [-> Hp]%andb_true_iff. now rewrite (IH Hp).
Qed.

Lemma strip_blank (p : string) : blank p = true -> Py.strip p = ""%string.
Proof. intros Hp. unfold Py.strip. now rewrite (lstrip_blank p Hp). Qed.

Lemma append_cons (c : ascii) (p s : string) :
  (String c p ++ s)%string = String c (p ++ s)%string.
Proof. reflexivity. Qed.

Lemma lstrip_app_blank (p s : string) :
  blank p = true -> Py.lstrip (p ++ s) = Py.lstrip s.
Proof.
  induction p as [| c p IH]; [reflexivity |].
  cbn [blank]. intros [Hc Hp]%andb_true_iff.
  rewrite append_cons. cbn [Py.lstrip]. rewrite Hc. now apply IH.
Qed.

Lemma rstrip_app_blank (s p : string) :
  blank p = true -> Py.rstrip (s ++ p) = Py.rstrip s.
Proof.
  intros Hp. induction s as [| c s IH]; [now apply rstrip_blank |].
  rewrite append_cons. cbn [Py.rstrip]. now rewrite IH.
Qed.

Lemma lstrip_app (s p : string) :
  Py.lstrip (s ++ p)
  = if Py.is_empty (Py.lstrip s) then Py.lstrip p else (Py.lstrip s ++ p)%string.
Proof.
  induction s as [| c s IH]; [reflexivity |].
  rewrite append_cons. cbn [Py.lstrip]. now destruct (Py.is_space c).
Qed.

(** Whitespace around a text does not survive trimming. *)
Lemma strip_padding (p1 s p2 : string) :
  blank p1 = true -> blank p2 = true ->
  Py.strip (p1 ++ s ++ p2) = Py.strip s.
Proof.
  intros H1 H2. unfold Py.strip.
  rewrite (lstrip_app_blank p1 _ H1), lstrip_app.
  destruct (Py.lstrip s) as [| c t] eqn:Hs; cbn [Py.is_empty].
  - now rewrite (lstrip_blank p2 H2).
  - now apply rstrip_app_blank.
Qed.

(** X16: the key under which a place is cached ignores letter case and
    surrounding whitespace, and normalising a key again changes nothing:
    "Delhi", "DELHI" and " delhi " share one cache entry. *)
Theorem cache_key_normalises (s : string) :
  cache_key (cache_key s) = cache_key s
  /\ (forall s', Py.lower s' = Py.lower s -> cache_key s' = cache_key s)
  /\ (forall p1 p2, blank p1 = true -> blank p2 = true ->
                    cache_key (p1 ++ s ++ p2) = cache_key s).
Proof.
  unfold cache_key. repeat split.
  - now rewrite lower_strip, lower_idem, <- lower_strip, strip_idem.
  - intros s' Heq. now rewrite !lower_strip, Heq.
  - intros p1 p2 H1 H2. now rewrite strip_padding.
Qed.

Lemma cache_key_normalises_witness :
  cache_key " DELHI  " = cache_key "delhi".
Proof.
  transitivity (cache_key "DELHI").
  - apply (proj2 (proj2 (cache_key_normalises "DELHI")) " " "  "); reflexivity.
  - apply (proj1 (proj2 (cache_key_normalises "delhi"))). reflexivity.
Defined.

Lemma is_word_lower_opt (c : option ascii) : Py.is_word (lower_opt c) = Py.is_word c.
Proof. destruct c; [apply is_word_char_lower | reflexivity]. Qed.

Lemma peek_lower (s : string) : Py.peek (Py.lower s) = lower_opt (Py.peek s).
Proof. now destruct s. Qed.

Lemma at_boundary_lower (prev : option ascii) (s : string) :
  Py.at_boundary (lower_opt prev) (Py.lower s) = Py.at_boundary prev s.
Proof.
  unfold Py.at_boundary. now rewrite peek_lower, !is_word_lower_opt.
Qed.

Lemma match_literal_lower (p : string) (prev : option ascii) (s : string) :
  Py.match_literal p (lower_opt prev) (Py.lower s)
  = match Py.match_literal p prev s with
    | Some (last, rest) => Some (lower_opt last, Py.lower rest)
    | None => None
    end.
Proof.
  revert prev s. induction p as [| a p IH]; intros prev s; [reflexivity |].
  destruct s as [| c s]; [reflexivity |].
  cbn [Py.match_literal Py.lower]. rewrite lower_ascii_idem.
  destruct (Ascii.eqb (Py.lower_ascii a) (Py.lower_ascii c)); [| reflexivity].
  apply (IH (Some c) s).
Qed.

Lemma match_here_lower (alts : list string) (prev : option ascii) (s : string) :
  Py.match_here alts (lower_opt prev) (Py.lower s) = Py.match_here alts prev s.
Proof.
  unfold Py.match_here. rewrite at_boundary_lower. f_equal.
  induction alts as [| p alts IH]; [reflexivity |].
  cbn [existsb]. rewrite IH, match_literal_lower.
  destruct (Py.match_literal p prev s) as [[last rest] |]; [| reflexivity].
  now rewrite at_boundary_lower.
Qed.

Lemma search_from_lower (alts : list string) (prev : option ascii) (s : string) :
  Py.search_from alts (lower_opt prev) (Py.lower s) = Py.search_from alts prev s.
Proof.
  revert prev. induction s as [| c s IH]; intros prev;
    pose proof (match_here_lower alts prev) as Hhere.
  - specialize (Hhere ""%string). cbn [Py.lower] in Hhere.
    cbn [Py.search_from Py.lower]. now rewrite Hhere.
  - specialize (Hhere (String c s)). cbn [Py.lower] in Hhere.
    cbn [Py.search_from Py.lower]. rewrite Hhere. f_equal.
    apply (IH (Some c)).
Qed.

(** X17: the highway patterns ignore letter case: two texts that differ
    only in case are matched alike, by the scorer's pattern and by the
    classifier's. *)
Theorem highway_patterns_ignore_case (s s' : string) :
  Py.lower s = Py.lower s' ->
  Py.search safety_engine.HIGHWAY_PATTERN s
  = Py.search safety_engine.HIGHWAY_PATTERN s'
  /\ Py.search route_service.HIGHWAY_PATTERN s
     = Py.search route_service.HIGHWAY_PATTERN s'.
Proof.
  intros Heq. unfold Py.search.
  split.
  - rewrite <- (search_from_lower _ None s), <- (search_from_lower _ None s').
    now rewrite Heq.
  - rewrite <- (search_from_lower _ None s), <- (search_from_lower _ None s').
    now rewrite Heq.
Qed.

Lemma highway_patterns_ignore_case_witness :
  Py.search safety_engine.HIGHWAY_PATTERN "nh 48 Bypass"
  = Py.search safety_engine.HIGHWAY_PATTERN "NH 48 bypass".
Proof.
  apply (highway_patterns_ignore_case "nh 48 Bypass" "NH 48 bypass"). reflexivity.
Defined.

End TextFacts.

(** ** The geocode cache *)

Module CacheFacts.

Import safety_engine route_service route Metrics Notions Failures Samples MoreSamples.

Lemma geocode_caches (nominatim : string -> GeoReply) (place : string)
    (c c' : Cache) (coords : Coords) :
  geocode nominatim place c = (inr coords, c') ->
  c' !! cache_key place = Some coords.
Proof.
  unfold geocode. fold (cache_key place).
  destruct (c !! cache_key place) as [xy |] eqn:Hlook.
  - now intros [= <- <-].
  - destruct (nominatim _) as [msg | status reason data]; [discriminate |].
    destruct (negb (is_success status)); [discriminate |].
    destruct data as [| hit rest]; [discriminate |].
    intros [= <- <-]. apply lookup_insert_eq.
Qed.

Lemma geocode_grows (nominatim : string -> GeoReply) (place : string)
    (c c' : Cache) (r : Exn + Coords) :
  geocode nominatim place c = (r, c') -> c ⊆ c'.
Proof.
  unfold geocode. fold (cache_key place).
  destruct (c !! cache_key place) as [xy |] eqn:Hlook.
  - now intros [= <- <-].
  - destruct (nominatim _) as [msg | status reason data]; [now intros [= <- <-] |].
    destruct (negb (is_success status)); [now intros [= <- <-] |].
    destruct data as [| hit rest]; [now intros [= <- <-] |].
    intros [= <- <-]. now apply insert_subseteq.
Qed.

(** X18: once a place has been resolved, resolving any spelling with the
    same cache key returns the same coordinates and leaves the cache as it
    is, whatever the geocoding service would answer: no second call is
    made. *)
Theorem geocode_idempotent (nominatim nominatim' : string -> GeoReply)
    (place place' : string) (c c' : Cache) (coords : Coords) :
  geocode nominatim place c = (inr coords, c') ->
  cache_key place' = cache_key place ->
  geocode nominatim' place' c' = (inr coords, c').
Proof.
  intros Hgeo Hkey. apply Pipeline.geocode_cached.
  rewrite Hkey. exact (geocode_caches _ _ _ _ _ Hgeo).
Qed.

Lemma geocode_idempotent_witness :
  exists c',
    geocode nominatim_jaipur "Sanganer" _geocode_cache = (inr (26.9124, 75.7873), c')
    /\ geocode nominatim_down " SANGANER " c' = (inr (26.9124, 75.7873), c').
Proof.
  destruct (geocode nominatim_jaipur "Sanganer" _geocode_cache) as [r c'] eqn:Hgeo.
  assert (Hr : r = inr (26.9124, 75.7873)).
  { apply (f_equal fst) in Hgeo. cbn [fst] in Hgeo. rewrite <- Hgeo.
    vm_compute. reflexivity. }
  subst r. exists c'. split; [reflexivity |].
  apply (geocode_idempotent nominatim_jaipur nominatim_down "Sanganer" " SANGANER "
           _geocode_cache c' _ Hgeo).
  reflexivity.
Defined.

(** X19: every seeded city resolves to its seeded coordinates from the
    initial cache, without a call to the geocoding service. *)
Theorem seeded_cities_resolve (nominatim : string -> GeoReply) :
  Forall (fun entry : string * Coords =>
            geocode nominatim entry.1 _geocode_cache = (inr entry.2, _geocode_cache))
         _SEED_CACHE.
Proof.
  unfold _SEED_CACHE.
  repeat (constructor;
          [apply Pipeline.geocode_cached; vm_compute; reflexivity |]).
  constructor.
Qed.

Lemma fetch_keeps_cache (osrm : Coords -> Coords -> OsrmReply)
    (a b a' b' : Q) (c c' : Cache) (r : Exn + list Route) :
  fetch_osrm_routes osrm a b a' b' c = (r, c') -> c' = c.
Proof.
  unfold fetch_osrm_routes.
  destruct (osrm _ _) as [msg | status reason data]; [now intros [= _ <-] |].
  destruct (negb (is_success status)); [now intros [= _ <-] |].
  destruct (negb (bool_decide _)); now intros [= _ <-].
Qed.

Lemma process_route_keeps_cache (mode : SafetyMode) (ir : nat * Route)
    (c c' : Cache) (r : Exn + RouteInfo) :
  process_route mode ir c = (r, c') -> c' = c.
Proof.
  unfold process_route. destruct ir as [i route].
  destruct (r_duration route); now intros [= _ <-].
Qed.

Lemma for_each_keeps_cache (mode : SafetyMode) (irs : list (nat * Route))
    (c c' : Cache) (r : Exn + list RouteInfo) :
  for_each (process_route mode) irs c = (r, c') -> c' = c.
Proof.
  revert r c'. induction irs as [| ir irs IH]; intros r c'; [now intros [= _ <-] |].
  cbn [for_each]. unfold bind at 1.
  destruct (process_route mode ir c) as [[e | info] c1] eqn:Hone;
    apply process_route_keeps_cache in Hone; subst c1; [now intros [= _ <-] |].
  unfold bind at 1.
  pose proof (IH _ _ (surjective_pairing _)) as Hc2.
  destruct (for_each (process_route mode) irs c) as [[e | infos] c2];
    cbn [snd] in Hc2; subst c2; now intros [= _ <-].
Qed.

(** The pipeline changes the cache only through its two [geocode] calls. *)
Lemma get_routes_cache (nominatim : string -> GeoReply)
    (osrm : Coords -> Coords -> OsrmReply)
    (origin destination : string) (mode : SafetyMode)
    (c c' : Cache) (r : Exn + RouteResponse) :
  get_routes nominatim osrm origin destination mode c = (r, c') ->
  c ⊆ c'
  /\ forall resp, r = inr resp ->
       c' !! cache_key origin = Some (origin_coords resp)
       /\ c' !! cache_key destination = Some (destination_coords resp).
Proof.
  unfold get_routes. unfold bind at 1.
  destruct (geocode nominatim origin c) as [[e | from] c1] eqn:Hfrom.
  { intros [= <- <-]. split; [exact (geocode_grows _ _ _ _ _ Hfrom) | discriminate]. }
  unfold bind at 1.
  destruct (geocode nominatim destination c1) as [[e | to] c2] eqn:Hto.
  { intros [= <- <-]. split; [| discriminate].
    transitivity c1; eauto using geocode_grows. }
  assert (Hsub : c ⊆ c2) by (transitivity c1; eauto using geocode_grows).
  assert (Hko : c2 !! cache_key origin = Some from).
  { eapply lookup_weaken; [exact (geocode_caches _ _ _ _ _ Hfrom) |].
    exact (geocode_grows _ _ _ _ _ Hto). }
  pose proof (geocode_caches _ _ _ _ _ Hto) as Hkd.
  unfold bind at 1.
  destruct (fetch_osrm_routes _ _ _ _ _ c2) as [[e | raw] c3] eqn:Hfetch;
    apply fetch_keeps_cache in Hfetch; subst c3.
  { intros [= <- <-]. split; [exact Hsub | discriminate]. }
  destruct raw as [| r0 rest].
  { intros [= <- <-]. split; [exact Hsub | discriminate]. }
  unfold bind.
  destruct (for_each _ _ c2) as [[e | processed] c4] eqn:Hloop;
    apply for_each_keeps_cache in Hloop; subst c4.
  { intros [= <- <-]. split; [exact Hsub | discriminate]. }
  intros [= <- <-]. split; [exact Hsub |].
  intros resp [= <-]. cbn [origin_coords destination_coords]. now split.
Qed.

(** X20: whatever a request comes to, the places cached before it are
    cached after it with the same coordinates: the endpoint only ever adds
    to the cache. *)
Theorem endpoint_only_adds_to_cache (nominatim : string -> GeoReply)
    (osrm : Coords -> Coords -> OsrmReply)
    (request : RouteRequest) (c : Cache) :
  c ⊆ (route_endpoint nominatim osrm request c).2
  /\ forall key coords,
       c !! key = Some coords ->
       (route_endpoint nominatim osrm request c).2 !! key = Some coords.
Proof.
  assert (H : c ⊆ (route_endpoint nominatim osrm request c).2).
  { unfold route_endpoint.
    destruct (Py.is_empty _ || Py.is_empty _); [reflexivity |].
    destruct (validate_mode request) as [mode |]; [| reflexivity].
    destruct (get_routes nominatim osrm _ _ mode c) as [[e | resp] c'] eqn:Hget;
      apply get_routes_cache in Hget as [Hsub _]; exact Hsub. }
  split; [exact H |].
  intros key coords Hlook. eapply lookup_weaken; eauto.
Qed.

Lemma endpoint_only_adds_to_cache_witness :
  (route_endpoint nominatim_jaipur osrm_down atlantis_jaipur _geocode_cache).2
    !! "delhi"%string
  = Some (28.6139, 77.2090).
Proof.
  apply (endpoint_only_adds_to_cache nominatim_jaipur osrm_down atlantis_jaipur
           _geocode_cache).
  vm_compute. reflexivity.
Defined.

(** X21: after a successful response, both places of the request are in
    the cache under their keys, with the coordinates the response gives. *)
Theorem response_places_are_cached (nominatim : string -> GeoReply)
    (osrm : Coords -> Coords -> OsrmReply)
    (origin destination : string) (mode : SafetyMode)
    (c c' : Cache) (resp : RouteResponse) :
  get_routes nominatim osrm origin destination mode c = (inr resp, c') ->
  c' !! cache_key origin = Some (origin_coords resp)
  /\ c' !! cache_key destination = Some (destination_coords resp).
Proof.
  intros Hget. apply get_routes_cache in Hget as [_ H]. now apply H.
Qed.

Lemma response_places_are_cached_witness :
  exists resp,
    _geocode_cache !! cache_key "Delhi" = Some (origin_coords resp)
    /\ _geocode_cache !! cache_key "Jaipur" = Some (destination_coords resp).
Proof.
  destruct Identifiers.sample_run as (resp & Hget & _).
  exists resp.
  exact (response_places_are_cached _ _ _ _ _ _ _ _ Hget).
Defined.

End CacheFacts.

(** ** The endpoint *)

Module EndpointFacts.

Import safety_engine route_service route Metrics Notions Failures Samples MoreSamples.

Lemma for_each_missing_duration (mode : SafetyMode) (irs : list (nat * Route))
    (c : Cache) :
  Exists (fun ir : nat * Route => r_duration ir.2 = None) irs ->
  for_each (process_route mode) irs c = (inl (KeyError "'duration'"), c).
Proof.
  induction irs as [| [i route] irs IH]; intros Hex; [now apply Exists_nil in Hex |].
  cbn [for_each]. unfold bind at 1, process_route at 1.
  destruct (r_duration route) as [d |] eqn:Hd; [| reflexivity].
  cbn [ret]. apply Exists_cons in Hex as [Hex | Hex];
    [cbn [snd] in Hex; congruence |].
  unfold bind. now rewrite (IH Hex).
Qed.

(** X22: a candidate among the first three that carries no duration makes
    the request fail with status 500 ("Unexpected error: 'duration'"),
    although the safety engine scores such a route with duration 0. *)
Theorem missing_duration_is_500 (nominatim : string -> GeoReply)
    (osrm : Coords -> Coords -> OsrmReply)
    (request : RouteRequest) (mode : SafetyMode)
    (cache c1 c2 : Cache) (from to : Coords)
    (status : Z) (reason : string) (data : OsrmBody) :
  valid_request request mode ->
  geocode nominatim (Py.strip (origin request)) cache = (inr from, c1) ->
  geocode nominatim (Py.strip (destination request)) c1 = (inr to, c2) ->
  osrm from to = OsrmResponse status reason data ->
  is_success status = true ->
  o_code data = Some "Ok"%string ->
  Exists (fun r => r_duration r = None) (take 3 (get (o_routes data) [])) ->
  route_endpoint nominatim osrm request cache
  = (HTTPException 500 "Unexpected error: 'duration'", c2).
Proof.
  intros Hvalid Hfrom Hto Hosrm Hok Hcode Hmissing.
  rewrite (Pipeline.route_endpoint_raises nominatim osrm request mode cache c2
             (KeyError "'duration'") Hvalid); [reflexivity |].
  unfold get_routes. unfold bind at 1. rewrite Hfrom.
  unfold bind at 1. rewrite Hto.
  unfold bind at 1, fetch_osrm_routes.
  destruct from as [from_lat from_lng], to as [to_lat to_lng]. cbn [fst snd].
  rewrite Hosrm, Hok, Hcode. cbn [negb]. rewrite bool_decide_eq_true_2 by done.
  cbn [negb ret].
  destruct (get (o_routes data) []) as [| r rest] eqn:Hraw;
    [now apply Exists_nil in Hmissing |].
  unfold bind. rewrite for_each_missing_duration; [reflexivity |].
  apply Exists_exists in Hmissing as (route & Hin & Hnone).
  apply list_elem_of_lookup in Hin as [i Hi].
  apply Exists_exists. exists (i, route). split; [| exact Hnone].
  now apply (elem_of_lookup_imap_2 pair).
Qed.

Lemma missing_duration_is_500_witness :
  route_endpoint nominatim_down osrm_no_duration delhi_jaipur _geocode_cache
  = (HTTPException 500 "Unexpected error: 'duration'", _geocode_cache).
Proof.
  apply (missing_duration_is_500 nominatim_down osrm_no_duration delhi_jaipur day
           _geocode_cache _geocode_cache _geocode_cache
           (28.6139, 77.2090) (26.9124, 75.7873) 200 "OK"
           (mkOsrmBody (Some "Ok"%string) None
              (Some [long_highway_route; no_duration_route]))).
  - exact Pipeline.delhi_jaipur_valid.
  - exact (Pipeline.geocode_cached nominatim_down _ _ _ Pipeline.delhi_is_seeded).
  - exact (Pipeline.geocode_cached nominatim_down _ _ _ Pipeline.jaipur_is_seeded).
  - reflexivity.
  - reflexivity.
  - reflexivity.
  - apply Exists_cons_tl, Exists_cons_hd. reflexivity.
Defined.

Lemma assign_names_short (l : list RouteInfo) :
  (length l <= 3)%nat ->
  map name (assign_names l) = take (length l) name_labels.
Proof.
  destruct l as [| a [| b [| c [| d l]]]]; cbn [length]; intros H;
    try reflexivity; lia.
Qed.

(** X23: the returned routes are named "Recommended Route", "Scenic
    Route", "Shortest Route" in that order, as many as there are; the
    route named "Recommended Route" has the highest safety score of all. *)
Theorem names_follow_the_ranking (nominatim : string -> GeoReply)
    (osrm : Coords -> Coords -> OsrmReply)
    (origin destination : string) (mode : SafetyMode)
    (cache cache' : Cache) (resp : RouteResponse) :
  get_routes nominatim osrm origin destination mode cache = (inr resp, cache') ->
  map name (routes resp) = take (length (routes resp)) name_labels
  /\ (1 <= length (routes resp) <= 3)%nat
  /\ forall first rest,
       routes resp = first :: rest ->
       name first = "Recommended Route"%string
       /\ Forall (fun r => safety_score r <= safety_score first) rest.
Proof.
  intros Hget.
  pose proof (Identifiers.returned_routes_descending _ _ _ _ _ _ _ _ Hget) as Hdesc.
  apply Identifiers.get_routes_inv in Hget
    as (from & to & status & reason & data & processed & _ & Hne & Hall & ->).
  cbn [routes] in *.
  assert (Hlen : length (assign_names (rank processed))
                 = length (take 3 (get (o_routes data) []))).
  { unfold assign_names, rank.
    rewrite length_imap, (Permutation_length (Ranking.sort_reverse_perm _ _)).
    apply Forall2_length in Hall. rewrite <- Hall.
    unfold Py.enumerate. now rewrite length_imap. }
  assert (Hbound : (1 <= length (assign_names (rank processed)) <= 3)%nat).
  { rewrite Hlen, length_take.
    destruct (get (o_routes data) []); [congruence | cbn [length]; lia]. }
  assert (Hnames : map name (assign_names (rank processed))
                   = take (length (assign_names (rank processed))) name_labels).
  { assert (Hl : length (assign_names (rank processed)) = length (rank processed))
      by (unfold assign_names; apply length_imap).
    rewrite Hl. apply assign_names_short. lia. }
  split; [exact Hnames |]. split; [lia |].
  intros first rest Hroutes. rewrite Hroutes in Hnames, Hdesc. split.
  - cbn [map length take name_labels] in Hnames. now injection Hnames.
  - now apply StronglySorted_inv in Hdesc as [_ Hfirst].
Qed.

Lemma names_follow_the_ranking_witness :
  exists resp,
    map name (routes resp) = take (length (routes resp)) name_labels
    /\ map id (routes resp) = ["route_2"; "route_3"; "route_1"]%string.
Proof.
  destruct Identifiers.sample_run as (resp & Hget & Hids).
  exists resp. split; [| exact Hids].
  exact (proj1 (names_follow_the_ranking _ _ _ _ _ _ _ _ Hget)).
Defined.

(** X24: the endpoint answers with one of four statuses, 200, 422, 502 or
    500, and with 200 exactly when the pipeline returns. *)
Theorem endpoint_statuses_are_four (nominatim : string -> GeoReply)
    (osrm : Coords -> Coords -> OsrmReply)
    (request : RouteRequest) (cache : Cache) :
  In (status_code_of (route_endpoint nominatim osrm request cache).1)
     endpoint_statuses
  /\ (status_code_of (route_endpoint nominatim osrm request cache).1 = 200%Z
      <-> exists mode resp cache',
            valid_request request mode
            /\ get_routes nominatim osrm (Py.strip (origin request))
                 (Py.strip (destination request)) mode cache = (inr resp, cache')).
Proof.
  unfold route_endpoint, valid_request, endpoint_statuses.
  destruct (Py.is_empty (Py.strip (origin request))) eqn:Ho;
    [cbn; split; [auto |]; split; [discriminate |];
     intros (m & r & c' & (H & _) & _); discriminate |].
  destruct (Py.is_empty (Py.strip (destination request))) eqn:Hd;
    [cbn; split; [auto |]; split; [discriminate |];
     intros (m & r & c' & (_ & H & _) & _); discriminate |].
  cbn [orb].
  destruct (validate_mode request) as [mode |];
    [| cbn; split; [auto |]; split; [discriminate |];
       intros (m & r & c' & (_ & _ & H) & _); discriminate].
  destruct (get_routes nominatim osrm _ _ mode cache) as [[e | resp] c'] eqn:Hget.
  - cbn [fst]. unfold except_clauses.
    destruct (is_ValueError e); [| destruct (is_RuntimeError e)];
      cbn; (split; [auto 6 |]); (split; [discriminate |]);
      intros (m & r & c'' & (_ & _ & [= <-]) & Hg); congruence.
  - cbn. split; [auto |]. split; [| reflexivity].
    intros _. exists mode, resp, c'. auto.
Qed.

(** X25: a request whose origin or destination is empty or made of
    whitespace only is answered with status 422; no service is consulted
    and the cache is left alone. *)
Theorem blank_place_is_422 (nominatim : string -> GeoReply)
    (osrm : Coords -> Coords -> OsrmReply)
    (request : RouteRequest) (cache : Cache) :
  blank (origin request) = true \/ blank (destination request) = true ->
  route_endpoint nominatim osrm request cache
  = (HTTPException 422 "Origin and destination are required.", cache).
Proof.
  intros Hblank. unfold route_endpoint.
  assert (H : Py.is_empty (Py.strip (origin request))
              || Py.is_empty (Py.strip (destination request)) = true).
  { apply orb_true_iff.
    destruct Hblank as [H | H]; [left | right];
      now rewrite (TextFacts.strip_blank _ H). }
  now rewrite H.
Qed.

Lemma blank_place_is_422_witness :
  route_endpoint nominatim_down osrm_down (mkRouteRequest "  " "Jaipur" "day")
                 _geocode_cache
  = (HTTPException 422 "Origin and destination are required.", _geocode_cache).
Proof. apply blank_place_is_422. left. reflexivity. Defined.

(** X26: the mode is read without regard to case and surrounding
    whitespace: it is night exactly when it normalises to "night", day
    exactly when it is empty or normalises to "day"; a mode of whitespace
    only, unlike the empty mode, is rejected. *)
Theorem mode_validation (request : RouteRequest) :
  (validate_mode request = Some night
   <-> Py.lower (Py.strip (mode request)) = "night"%string)
  /\ (validate_mode request = Some day
      <-> mode request = ""%string
          \/ Py.lower (Py.strip (mode request)) = "day"%string)
  /\ (blank (mode request) = true -> mode request <> ""%string ->
      validate_mode request = None).
Proof.
  unfold validate_mode.
  destruct (mode request) as [| c m] eqn:Hmode.
  - cbn. repeat split; try discriminate; auto; intros; congruence.
  - cbn [Py.is_empty negb].
    set (norm := Py.lower (Py.strip (String c m))).
    assert (Hblank : blank (String c m) = true -> norm = ""%string).
    { intros H. unfold norm. now rewrite (TextFacts.strip_blank _ H). }
    destruct (String.eqb norm "day") eqn:Hday;
      [apply String.eqb_eq in Hday | apply String.eqb_neq in Hday];
      (destruct (String.eqb norm "night") eqn:Hnight;
       [apply String.eqb_eq in Hnight | apply String.eqb_neq in Hnight]);
      repeat split; try discriminate; try congruence; auto;
      try (intros [H | H]; congruence);
      try (intros H _; apply Hblank in H; congruence).
Qed.

Lemma mode_validation_witness :
  validate_mode (mkRouteRequest "Delhi" "Jaipur" "   ") = None.
Proof.
  apply (mode_validation (mkRouteRequest "Delhi" "Jaipur" "   "));
    [reflexivity | discriminate].
Defined.

End EndpointFacts.

(** ** The chat service *)

Module ChatFacts.

Import groq_service Notions MoreSamples.

Lemma last_six_suffix {A} (l : list A) :
  take (length l - 6) l ++ last_six l = l
  /\ length (last_six l) = Nat.min 6 (length l).
Proof.
  unfold last_six. split; [apply take_drop |]. rewrite length_drop. lia.
Qed.

(** X27: the payload sent to the completion API starts with the system
    prompt, followed by the last six messages of the conversation (all of
    them when there are fewer), in order and unchanged: at most seven
    messages, whatever the length of the conversation. *)
Theorem payload_keeps_last_six (SYSTEM_PROMPT : string) (msgs : list Message) :
  let p := build_payload SYSTEM_PROMPT msgs in
  messages p
  = ("system"%string, SYSTEM_PROMPT)
      :: map (fun m => (role m, content m)) (last_six msgs)
  /\ (exists older, msgs = older ++ last_six msgs)
  /\ length (messages p) = S (Nat.min 6 (length msgs))
  /\ (length (messages p) <= 7)%nat.
Proof.
  cbv zeta. unfold build_payload. cbn [messages length].
  destruct (last_six_suffix msgs) as [Hsplit Hlen].
  rewrite length_map, Hlen.
  repeat split; [| lia].
  exists (take (length msgs - 6) msgs). now rewrite Hsplit.
Qed.

(** X28: the chat service answers "success" only with the content the
    completion API returned under a success status; without an API key it
    answers the configuration error and the API is not consulted. *)
Theorem chat_success_only_with_content (GROQ_API_KEY SYSTEM_PROMPT : string)
    (groq : list (string * string) -> Payload -> GroqReply) (msgs : list Message) :
  let resp := get_groq_response GROQ_API_KEY SYSTEM_PROMPT groq msgs in
  (status resp = "success"%string \/ status resp = "error"%string)
  /\ (status resp = "success"%string ->
      GROQ_API_KEY <> ""%string
      /\ exists code,
           is_success code = true
           /\ groq (headers GROQ_API_KEY) (build_payload SYSTEM_PROMPT msgs)
              = GroqResponse code (inr (reply resp)))
  /\ (GROQ_API_KEY = ""%string ->
      resp = mkChatResponse "Server Config Error: Groq API Key missing." "error").
Proof.
  cbv zeta. unfold get_groq_response.
  destruct GROQ_API_KEY as [| k key] eqn:Hkey.
  - cbn. repeat split; auto; discriminate.
  - cbn [Py.is_empty]. rewrite <- Hkey.
    destruct (groq _ _) as [msg | code [msg | content]].
    + cbn. repeat split; auto; try discriminate; congruence.
    + destruct (negb (is_success code));
        cbn; repeat split; auto; try discriminate; congruence.
    + destruct (is_success code) eqn:Hok; cbn [negb status reply].
      * repeat split; auto; try congruence. eauto.
      * repeat split; auto; try discriminate; congruence.
Qed.

Lemma chat_success_only_with_content_witness :
  exists code,
    is_success code = true
    /\ groq_ok (headers "key") (build_payload "Be brief." eight_messages)
       = GroqResponse code
           (inr (reply (get_groq_response "key" "Be brief." groq_ok eight_messages))).
Proof.
  destruct (chat_success_only_with_content "key" "Be brief." groq_ok eight_messages)
    as (_ & Hsucc & _).
  exact (proj2 (Hsucc eq_refl)).
Defined.

End ChatFacts.
